(** * pyfda: the frequency-unit subwidget [FreqUnits]

    A shallow embedding of [pyfda/input_widgets/freq_units.py].  The widget
    writes a handful of keys of the shared filter dictionary [fb.fil[0]] and
    notifies its listeners through the signal [sig_tx].  Methods are
    computations in a state-and-exception monad over a [world] that holds the
    dictionary, the attributes of the widget that the methods read or write,
    and the log of emitted signals.  A Python exception leaves the mutations
    done so far in place, as in Python. *)

From Stdlib Require Import ZArith Floats.
From stdpp Require Import gmap strings list fin_maps.

Open Scope Z_scope.

(** ** Python values *)

(** The values stored in [fb.fil[0]] and passed around by the widget.
    Python floats are binary64, as are Rocq's primitive floats. *)
#[warnings="-register-all"]
Inductive value : Type :=
| VNone
| VBool (b : bool)
| VInt (z : Z)
| VFloat (x : float)
| VStr (s : string)
| VList (l : list value).

Inductive exn : Type :=
| KeyError (k : string)
| TypeError
| ZeroDivisionError
| OverflowError
| IndexError
| UnboundLocalError (x : string)
| ForeignError (msg : string).

Inductive outcome (A : Type) : Type :=
| Ok (a : A)
| Raise (e : exn).
Arguments Ok {A} a.
Arguments Raise {A} e.

Module Py.

(** [float(z)] for a Python int: round to nearest, ties to even;
    [OverflowError] when the result does not fit a binary64. *)
Definition float_of_int (z : Z) : outcome float :=
  let x := SF2Prim (binary_normalize prec emax z 0 false) in
  if is_infinity x then Raise OverflowError else Ok x.

(** The float an operand of [/] is converted to ([bool] is an [int]). *)
Definition as_float (v : value) : outcome float :=
  match v with
  | VFloat x => Ok x
  | VInt z => float_of_int z
  | VBool b => Ok (if b then 1%float else 0%float)
  | VNone | VStr _ | VList _ => Raise TypeError
  end.

Definition float_div (x y : float) : outcome value :=
  if (y =? 0)%float then Raise ZeroDivisionError else Ok (VFloat (x / y)).

(** [x / b] where [x] is a float literal, as in [1./f_S]. *)
Definition truediv_l (x : float) (b : value) : outcome value :=
  match as_float b with
  | Ok y => float_div x y
  | Raise e => Raise e
  end.

(** [a / y] where [y] is a float literal, as in [f_max/2.]. *)
Definition truediv_r (a : value) (y : float) : outcome value :=
  match as_float a with
  | Ok x => float_div x y
  | Raise e => Raise e
  end.

(** Unary minus. *)
Definition neg (v : value) : outcome value :=
  match v with
  | VFloat x => Ok (VFloat (- x))
  | VInt z => Ok (VInt (- z))
  | VBool b => Ok (VInt (- (if b then 1 else 0)))
  | VNone | VStr _ | VList _ => Raise TypeError
  end.

(** Truth value of an object, as tested by [if emit:]. *)
Definition truthy (v : value) : bool :=
  match v with
  | VNone => false
  | VBool b => b
  | VInt z => negb (z =? 0)
  | VFloat x => negb (x =? 0)%float
  | VStr s => negb (String.eqb s "")
  | VList l => match l with [] => false | _ => true end
  end.

(** [v == s] for a string literal [s]: only a [str] equals a [str]. *)
Definition eq_str (v : value) (s : string) : bool :=
  match v with
  | VStr t => String.eqb t s
  | _ => false
  end.

(** [a == b] on numbers (the comparison of the invariant [T_S == 1/f_S]);
    [None] where the model does not need the comparison. *)
Definition eq_num (a b : value) : option bool :=
  match a, b with
  | VFloat x, VFloat y => Some (x =? y)%float
  | VInt x, VInt y => Some (x =? y)
  | _, _ => None
  end.

(** [l[i]] on a list: negative indices count from the end. *)
Definition getitem {A} (l : list A) (i : Z) : outcome A :=
  let n := Z.of_nat (length l) in
  let j := if i <? 0 then i + n else i in
  if (j <? 0) || (n <=? j) then Raise IndexError
  else match l !! Z.to_nat j with
       | Some a => Ok a
       | None => Raise IndexError
       end.

(** [d[k]] on a dict *)
Definition dict_getitem (d : gmap string value) (k : string) : outcome value :=
  match d !! k with
  | Some v => Ok v
  | None => Raise (KeyError k)
  end.

(** [v in {"f_S", "f_Ny", "k"}]: an unhashable object raises. *)
Definition normalized_units : gset string := {[ "f_S"; "f_Ny"; "k" ]}.

Definition is_normalized (u : string) : bool :=
  bool_decide (u ∈ normalized_units).

Definition in_normalized (v : value) : outcome bool :=
  match v with
  | VStr u => Ok (is_normalized u)
  | VList _ => Raise TypeError
  | VNone | VBool _ | VInt _ | VFloat _ => Ok false
  end.

End Py.

(** ** Qt widgets, reduced to the attributes the methods touch *)

Record QLineEdit := { text : string; ledVisible : bool }.

Record QToolButton := { isChecked : bool; icon : string; butVisible : bool }.

(** A combo box: its entries (text and user data) and the current index
    ([-1] when nothing is selected). *)
Record QComboBox := { items : list (string * value); currentIndex : Z }.

Definition currentText (c : QComboBox) : string :=
  if currentIndex c <? 0 then ""
  else match items c !! Z.to_nat (currentIndex c) with
       | Some (t, _) => t
       | None => ""
       end.

(** One emitted signal: the dict passed to [sig_tx.emit], as its items. *)
Definition signal : Type := list (string * string).

(** ** The world: [fb.fil[0]], the widget's attributes, the emitted signals *)

Record world := {
  fil : gmap string value;
  sig_tx : list signal;
  fs_old : value;
  spec_edited : bool;
  ledF_S : QLineEdit;
  lblF_S_visible : bool;
  butLock : QToolButton;
  butSort : QToolButton;
  cmbUnits : QComboBox;
  cmbFRange : QComboBox
}.

Definition with_fil (f : gmap string value) (s : world) : world :=
  {| fil := f; sig_tx := sig_tx s; fs_old := fs_old s;
     spec_edited := spec_edited s; ledF_S := ledF_S s;
     lblF_S_visible := lblF_S_visible s; butLock := butLock s;
     butSort := butSort s; cmbUnits := cmbUnits s; cmbFRange := cmbFRange s |}.

Definition with_sig_tx (l : list signal) (s : world) : world :=
  {| fil := fil s; sig_tx := l; fs_old := fs_old s;
     spec_edited := spec_edited s; ledF_S := ledF_S s;
     lblF_S_visible := lblF_S_visible s; butLock := butLock s;
     butSort := butSort s; cmbUnits := cmbUnits s; cmbFRange := cmbFRange s |}.

Definition with_fs_old (v : value) (s : world) : world :=
  {| fil := fil s; sig_tx := sig_tx s; fs_old := v;
     spec_edited := spec_edited s; ledF_S := ledF_S s;
     lblF_S_visible := lblF_S_visible s; butLock := butLock s;
     butSort := butSort s; cmbUnits := cmbUnits s; cmbFRange := cmbFRange s |}.

Definition with_spec_edited (b : bool) (s : world) : world :=
  {| fil := fil s; sig_tx := sig_tx s; fs_old := fs_old s;
     spec_edited := b; ledF_S := ledF_S s;
     lblF_S_visible := lblF_S_visible s; butLock := butLock s;
     butSort := butSort s; cmbUnits := cmbUnits s; cmbFRange := cmbFRange s |}.

Definition with_ledF_S (l : QLineEdit) (s : world) : world :=
  {| fil := fil s; sig_tx := sig_tx s; fs_old := fs_old s;
     spec_edited := spec_edited s; ledF_S := l;
     lblF_S_visible := lblF_S_visible s; butLock := butLock s;
     butSort := butSort s; cmbUnits := cmbUnits s; cmbFRange := cmbFRange s |}.

Definition with_lblF_S_visible (b : bool) (s : world) : world :=
  {| fil := fil s; sig_tx := sig_tx s; fs_old := fs_old s;
     spec_edited := spec_edited s; ledF_S := ledF_S s;
     lblF_S_visible := b; butLock := butLock s;
     butSort := butSort s; cmbUnits := cmbUnits s; cmbFRange := cmbFRange s |}.

Definition with_butLock (b : QToolButton) (s : world) : world :=
  {| fil := fil s; sig_tx := sig_tx s; fs_old := fs_old s;
     spec_edited := spec_edited s; ledF_S := ledF_S s;
     lblF_S_visible := lblF_S_visible s; butLock := b;
     butSort := butSort s; cmbUnits := cmbUnits s; cmbFRange := cmbFRange s |}.

Definition with_butSort (b : QToolButton) (s : world) : world :=
  {| fil := fil s; sig_tx := sig_tx s; fs_old := fs_old s;
     spec_edited := spec_edited s; ledF_S := ledF_S s;
     lblF_S_visible := lblF_S_visible s; butLock := butLock s;
     butSort := b; cmbUnits := cmbUnits s; cmbFRange := cmbFRange s |}.

Definition with_cmbUnits (c : QComboBox) (s : world) : world :=
  {| fil := fil s; sig_tx := sig_tx s; fs_old := fs_old s;
     spec_edited := spec_edited s; ledF_S := ledF_S s;
     lblF_S_visible := lblF_S_visible s; butLock := butLock s;
     butSort := butSort s; cmbUnits := c; cmbFRange := cmbFRange s |}.

Definition with_cmbFRange (c : QComboBox) (s : world) : world :=
  {| fil := fil s; sig_tx := sig_tx s; fs_old := fs_old s;
     spec_edited := spec_edited s; ledF_S := ledF_S s;
     lblF_S_visible := lblF_S_visible s; butLock := butLock s;
     butSort := butSort s; cmbUnits := cmbUnits s; cmbFRange := c |}.

(** ** The monad of methods *)

Definition M (A : Type) : Type := world → outcome A * world.

#[global] Instance M_ret : MRet M := λ A a s, (Ok a, s).

#[global] Instance M_bind : MBind M := λ A B f m s,
  match m s with
  | (Ok a, s') => f a s'
  | (Raise e, s') => (Raise e, s')
  end.

Definition raise {A} (e : exn) : M A := λ s, (Raise e, s).

Definition lift {A} (o : outcome A) : M A := λ s, (o, s).

Definition gets {A} (f : world → A) : M A := λ s, (Ok (f s), s).

Definition modify (f : world → world) : M unit := λ s, (Ok tt, f s).

(** The state a computation leaves, and what it returned or raised. *)
Definition exec {A} (m : M A) (s : world) : world := snd (m s).
Definition result {A} (m : M A) (s : world) : outcome A := fst (m s).

(** [fb.fil[0][k]] *)
Definition fil_get (k : string) : M value := λ s,
  (Py.dict_getitem (fil s) k, s).

(** [fb.fil[0][k] = v] and [fb.fil[0].update({k: v})] *)
Definition fil_set (k : string) (v : value) : M unit :=
  modify (λ s, with_fil (<[k := v]> (fil s)) s).

(** [self.sig_tx.emit(d)]: the emitted dict is recorded.  The slots that
    other widgets connect to [sig_tx] are outside this module. *)
Definition emit (d : signal) : M unit :=
  modify (λ s, with_sig_tx (sig_tx s ++ [d]) s).

(** [__name__] of the module *)
Definition __name__ : string := "pyfda.input_widgets.freq_units".

(** ** The widget's methods *)

Section FreqUnits.

(** What the module imports and this file does not define:
    [params['N_FFT']] and [params['FMT'].format] of [pyfda_rc.params],
    the builtin [str] on the stored sampling frequency, [safe_eval] of
    [pyfda_lib] (called with the field text and a fallback value; what it
    returns or raises is up to it) and [qget_cmb_box] of [pyfda_qt_lib].
    The two printers are taken as total: where a property depends on the
    call, the value printed is a number. *)
Variable N_FFT : value.
Variable FMT_format : value → string.
Variable py_str : value → string.
Variable safe_eval : string → value → outcome value.
Variable qget_cmb_box : QComboBox → value.

Definition f_units : list string :=
  ["k"; "f_S"; "f_Ny"; "Hz"; "kHz"; "MHz"; "GHz"].

(** [self.t_units] *)
Definition t_units : list string :=
  [""; ""; ""; "s"; "ms"; "$\mu$s"; "ns"].

Definition fRanges : list (string * value) :=
  [("0...½", VStr "half"); ("0...1", VStr "whole"); ("-½...½", VStr "sym")].

Definition ledF_S_setText (t : string) : M unit :=
  modify (λ s, with_ledF_S {| text := t; ledVisible := ledVisible (ledF_S s) |} s).

Definition ledF_S_setVisible (b : bool) : M unit :=
  modify (λ s, with_ledF_S {| text := text (ledF_S s); ledVisible := b |} s).

Definition butLock_setVisible (b : bool) : M unit :=
  modify (λ s, with_butLock {| isChecked := isChecked (butLock s);
                               icon := icon (butLock s); butVisible := b |} s).

Definition butLock_setIcon (i : string) : M unit :=
  modify (λ s, with_butLock {| isChecked := isChecked (butLock s);
                               icon := i; butVisible := butVisible (butLock s) |} s).

(** [_freq_range(self, emit=True)] *)
Definition _freq_range (emit_arg : value) : M unit :=
  let emit_flag := match emit_arg with VInt _ => VBool true | _ => emit_arg end in
  rangeType ← gets (λ s, qget_cmb_box (cmbFRange s));
  fil_set "freqSpecsRangeType" rangeType;;
  f_max ← fil_get "f_max";
  f_lim ← (if Py.eq_str rangeType "whole" then
             mret [VInt 0; f_max]
           else if Py.eq_str rangeType "sym" then
             n ← lift (Py.neg f_max);
             lo ← lift (Py.truediv_r n 2);
             hi ← lift (Py.truediv_r f_max 2);
             mret [lo; hi]
           else
             hi ← lift (Py.truediv_r f_max 2);
             mret [VInt 0; hi]);
  fil_set "freqSpecsRange" (VList f_lim);;
  if Py.truthy emit_flag then
    emit [("sender", __name__); ("view_changed", "f_range")]
  else mret tt.

(** [lock_fs(self)] *)
Definition lock_fs : M unit :=
  checked ← gets (λ s, isChecked (butLock s));
  (if checked : bool then
     f_S ← fil_get "f_S";
     fil_set "f_S_locked" f_S;;
     butLock_setIcon ":/lock-locked.svg"
   else
     fil_set "f_S_locked" VNone;;
     butLock_setIcon ":/lock-unlocked.svg");;
  emit [("sender", __name__); ("view_changed", "f_unit")].

(** The branch of [update_UI] for the units ["f_S"], ["f_Ny"] and ["k"].
    It returns the locals [f_label] and [t_label]; [idx] is not assigned. *)
Definition update_UI_normalized (f_unit : string) : M (string * string) :=
  f_S ← fil_get "f_S";
  modify (with_fs_old f_S);;
  let t_label := "$n \; \rightarrow$" in
  f_label ← (if String.eqb f_unit "f_S" then
               fil_set "f_S" (VFloat 1);; fil_set "f_max" (VFloat 1);;
               fil_set "T_S" (VFloat 1);;
               mret "$F = f\, /\, f_S = \Omega \, /\,  2 \mathrm{\pi} \; \rightarrow$"
             else if String.eqb f_unit "f_Ny" then
               fil_set "f_S" (VFloat 2);; fil_set "f_max" (VFloat 2);;
               fil_set "T_S" (VFloat 1);;
               mret "$F = 2f \, / \, f_S = \Omega \, / \, \mathrm{\pi} \; \rightarrow$"
             else
               fil_set "f_S" (VFloat 1);;
               fil_set "T_S" (VFloat 1);;
               fil_set "f_max" N_FFT;;
               mret "$k \; \rightarrow$");
  f_S' ← fil_get "f_S";
  ledF_S_setText (FMT_format f_S');;
  mret (f_label, t_label).

(** The branch of [update_UI] for Hz, kHz, ...  It returns the locals
    [f_S_scale], [f_label], [t_label] and [idx]. *)
Definition update_UI_absolute (f_unit : string) : M (value * string * string * Z) :=
  prev ← fil_get "freq_specs_unit";
  was_normalized ← lift (Py.in_normalized prev);
  (if was_normalized : bool then
     old ← gets fs_old;
     fil_set "f_S" old;; fil_set "f_max" old;;
     old' ← gets fs_old;
     T_S ← lift (Py.truediv_l 1 old');
     fil_set "T_S" T_S;;
     f_S ← fil_get "f_S";
     ledF_S_setText (FMT_format f_S)
   else mret tt);;
  let f_S_scale :=
    if String.eqb f_unit "Hz" then VFloat 1
    else if String.eqb f_unit "kHz" then VFloat 1e3
    else if String.eqb f_unit "MHz" then VFloat 1e6
    else if String.eqb f_unit "GHz" then VFloat 1e9
    else VInt 1 (* the default; a warning is logged *) in
  let f_label := "$f$ in " +:+ f_unit +:+ "$\; \rightarrow$" in
  idx ← gets (λ s, currentIndex (cmbUnits s));
  t_unit ← lift (Py.getitem t_units idx);
  let t_label := "$t$ in " +:+ t_unit +:+ "$\; \rightarrow$" in
  mret (f_S_scale, f_label, t_label, idx).

(** [update_UI(self)].  The local [idx] is bound in the absolute branch
    only: it is [None] after the normalized branch, and reading it there
    raises [UnboundLocalError]. *)
Definition update_UI : M unit :=
  f_unit ← gets (λ s, currentText (cmbUnits s));
  let is_normalized_freq := Py.is_normalized f_unit in
  ledF_S_setVisible (negb is_normalized_freq);;
  modify (with_lblF_S_visible (negb is_normalized_freq));;
  butLock_setVisible (negb is_normalized_freq);;
  '(f_S_scale, f_label, t_label, idx) ←
    (if is_normalized_freq then
       '(f_label, t_label) ← update_UI_normalized f_unit;
       mret (VInt 1, f_label, t_label, None)
     else
       '(f_S_scale, f_label, t_label, idx) ← update_UI_absolute f_unit;
       mret (f_S_scale, f_label, t_label, Some idx));
  let plt_f_unit := if String.eqb f_unit "k" then "f_S" else f_unit in
  fil_set "f_S_scale" f_S_scale;;
  fil_set "freq_specs_unit" (VStr f_unit);;
  fil_set "plt_fUnit" (VStr plt_f_unit);;
  i ← (match idx with
       | Some i => mret i
       | None => raise (UnboundLocalError "idx")
       end);
  t_unit ← lift (Py.getitem t_units i);
  fil_set "plt_tUnit" (VStr t_unit);;
  fil_set "plt_fLabel" (VStr f_label);;
  fil_set "plt_tLabel" (VStr t_label);;
  _freq_range (VBool false);;
  emit [("sender", __name__); ("view_changed", "f_unit")].

(** [_store_sort_flag(self)] *)
Definition _store_sort_flag : M unit :=
  checked ← gets (λ s, isChecked (butSort s));
  fil_set "freq_specs_sort" (VBool checked);;
  checked' ← gets (λ s, isChecked (butSort s));
  if checked' : bool then emit [("sender", __name__); ("specs_changed", "f_sort")]
  else mret tt.

(** *** The event filter of the sampling-frequency field *)

Inductive Qt_Key := Key_Return | Key_Enter | Key_Escape | Key_other (code : Z).

Inductive QEvent := FocusIn | FocusOut | KeyPress (key : Qt_Key) | OtherEvent.

(** The closure [_store_entry] of [eventFilter]; [source] is [ledF_S]. *)
Definition _store_entry : M unit :=
  edited ← gets spec_edited;
  if edited : bool then
    txt ← gets (λ s, text (ledF_S s));
    fallback ← fil_get "f_S";
    v ← lift (safe_eval txt fallback);
    fil_set "f_S" v;;
    f_S ← fil_get "f_S";
    T_S ← lift (Py.truediv_l 1 f_S);
    fil_set "T_S" T_S;;
    f_S' ← fil_get "f_S";
    fil_set "f_max" f_S';;
    _freq_range (VBool false);;
    emit [("sender", __name__); ("view_changed", "f_S")];;
    modify (with_spec_edited false)
  else mret tt.

(** [eventFilter(self, source, event)].  The filter is installed on
    [ledF_S] only, the one object named ["f_S"]: [objectName] is the name
    of [source], and [source.text()], [source.setText] act on [ledF_S].
    The result is that of the base class, which filters nothing. *)
Definition eventFilter (objectName : string) (event : QEvent) : M bool :=
  (if String.eqb objectName "f_S" then
     match event with
     | FocusIn =>
         modify (with_spec_edited false);;
         f_S ← fil_get "f_S";
         ledF_S_setText (py_str f_S)
     | KeyPress key =>
         modify (with_spec_edited true);;
         match key with
         | Key_Return | Key_Enter => _store_entry
         | Key_Escape =>
             modify (with_spec_edited false);;
             f_S ← fil_get "f_S";
             ledF_S_setText (py_str f_S)
         | Key_other _ => mret tt
         end
     | FocusOut =>
         _store_entry;;
         f_S ← fil_get "f_S";
         ledF_S_setText (FMT_format f_S)
     | OtherEvent => mret tt
     end
   else mret tt);;
  mret false.

(** The events that commit the field: Return or Enter (the key press sets
    [spec_edited] first), and a loss of focus while [spec_edited] is set. *)
Definition commits (event : QEvent) (s : world) : Prop :=
  event = KeyPress Key_Return ∨ event = KeyPress Key_Enter ∨
  (event = FocusOut ∧ spec_edited s = true).

(** *** The wiring of [_construct_UI] *)

(** The events of the controls, each with the slot connected to it: Qt
    updates the control (the new index, the toggled button) and then calls
    the slot.  [currentIndexChanged] carries the index, which reaches
    [_freq_range] as its argument [emit]; [update_UI] and
    [_store_sort_flag] take no argument.  A slot that raises leaves the
    dictionary and the widget as it had mutated them; a later event is
    handled on that state. *)
Inductive ui_event :=
| cmbUnits_currentIndexChanged (i : Z)
| butLock_clicked
| cmbFRange_currentIndexChanged (i : Z)
| butSort_clicked
| ledF_S_event (e : QEvent).

Definition setChecked (c : bool) (b : QToolButton) : QToolButton :=
  {| isChecked := c; icon := icon b; butVisible := butVisible b |}.

Definition toggled (b : QToolButton) : QToolButton :=
  {| isChecked := negb (isChecked b); icon := icon b; butVisible := butVisible b |}.

Definition setCurrentIndex (i : Z) (c : QComboBox) : QComboBox :=
  {| items := items c; currentIndex := i |}.

Definition dispatch (e : ui_event) : M unit :=
  match e with
  | cmbUnits_currentIndexChanged i =>
      modify (λ s, with_cmbUnits (setCurrentIndex i (cmbUnits s)) s);;
      update_UI
  | butLock_clicked =>
      modify (λ s, with_butLock (toggled (butLock s)) s);;
      update_UI
  | cmbFRange_currentIndexChanged i =>
      modify (λ s, with_cmbFRange (setCurrentIndex i (cmbFRange s)) s);;
      _freq_range (VInt i)
  | butSort_clicked =>
      modify (λ s, with_butSort (toggled (butSort s)) s);;
      _store_sort_flag
  | ledF_S_event e =>
      eventFilter "f_S" e;; mret tt
  end.

(** The entries of [cmbUnits], as [addItems(f_units)] makes them, and the
    unit shown when entry [i] is current. *)
Definition units_items : list (string * value) := (λ u, (u, VNone)) <$> f_units.

Definition unit_at (i : Z) : string :=
  currentText {| items := units_items; currentIndex := i |}.

(** The widget as [_construct_UI] has built it when it reaches its last
    statement, the first call of [update_UI]; [f_S] is [fb.fil[0]['f_S']]. *)
Definition constructed (fil0 : gmap string value) (f_S : value) : world :=
  {| fil := fil0; sig_tx := []; fs_old := f_S; spec_edited := false;
     ledF_S := {| text := py_str f_S; ledVisible := true |};
     lblF_S_visible := true;
     butLock := {| isChecked := true; icon := ":/lock-locked.svg"; butVisible := true |};
     butSort := {| isChecked := true; icon := ":/sort-ascending.svg"; butVisible := true |};
     cmbUnits := {| items := units_items; currentIndex := 1 |};
     cmbFRange := {| items := fRanges; currentIndex := 0 |} |}.

(** [__init__], through [_construct_UI]. *)
Definition __init__ (fil0 : gmap string value) : outcome unit * gmap string value :=
  match fil0 !! "f_S" with
  | None => (Raise (KeyError "f_S"), fil0)
  | Some f_S =>
      let r := update_UI (constructed fil0 f_S) in (r.1, fil r.2)
  end.

End FreqUnits.

(** ** Reloading the controls from the dictionary *)

Section LoadDict.

(** [params['FMT'].format], here with the exception it raises for a value
    the configured format string does not take (the documented ['{:.3g}']
    takes a number and raises for a [str], [None] or a list), and two
    conversions that Qt and its binding do and this file does not define:
    the comparison [findData] makes when the key is not a [str] (Qt converts
    the variants), given as the index it returns, and the [bool] that
    [setChecked] makes of an argument that is not a [bool]. *)
Variable try_FMT_format : value → outcome string.
Variable findData_other : list (string * value) → value → Z.
Variable bool_argument : value → outcome bool.

(** The index of the first element that satisfies [p], counted from [i];
    [-1] when there is none. *)
Fixpoint find_index {A} (p : A → bool) (l : list A) (i : Z) : Z :=
  match l with
  | [] => -1
  | a :: l' => if p a then i else find_index p l' (i + 1)
  end.

(** [cmb.findText(v)]: the first entry whose text is [v] (exact match, the
    default).  The binding takes a [str], and [None] as the null string,
    which equals the empty one; another object is a [TypeError]. *)
Definition findText (c : QComboBox) (v : value) : outcome Z :=
  match v with
  | VStr t => Ok (find_index (λ it, String.eqb it.1 t) (items c) 0)
  | VNone => Ok (find_index (λ it, String.eqb it.1 "") (items c) 0)
  | VBool _ | VInt _ | VFloat _ | VList _ => Raise TypeError
  end.

(** [cmb.findData(v)]: the first entry whose data is [v]. *)
Definition findData (c : QComboBox) (v : value) : Z :=
  match v with
  | VStr t => find_index (λ it, Py.eq_str it.2 t) (items c) 0
  | VNone | VBool _ | VInt _ | VFloat _ | VList _ => findData_other (items c) v
  end.

(** [load_dict(self)].  The signals of the controls are blocked while their
    state is set (and [setChecked] does not emit [clicked]): no slot runs. *)
Definition load_dict : M unit :=
  f_S ← fil_get "f_S";
  formatted ← lift (try_FMT_format f_S);
  ledF_S_setText formatted;;
  unit ← fil_get "freq_specs_unit";
  idx ← (c ← gets cmbUnits; lift (findText c unit));
  modify (λ s, with_cmbUnits (setCurrentIndex idx (cmbUnits s)) s);;
  rangeType ← fil_get "freqSpecsRangeType";
  idx' ← gets (λ s, findData (cmbFRange s) rangeType);
  modify (λ s, with_cmbFRange (setCurrentIndex idx' (cmbFRange s)) s);;
  sort ← fil_get "freq_specs_sort";
  checked ← lift (match sort with
                  | VBool b => Ok b
                  | _ => bool_argument sort
                  end);
  modify (λ s, with_butSort (setChecked checked (butSort s)) s).

End LoadDict.

(** The events of a list, handled one after the other, each on the state the
    one before has left. *)
Definition handle_all (handle : ui_event → M unit) (events : list ui_event)
    (s : world) : world :=
  foldl (λ st e, exec (handle e) st) s events.

(** * The axis range, in the words of the specification *)

#[global] Instance outcome_ret : MRet outcome := λ A a, Ok a.

#[global] Instance outcome_bind : MBind outcome := λ A B f o,
  match o with
  | Ok a => f a
  | Raise e => Raise e
  end.

(** [whole → [0, f_max]], [sym → [-f_max/2, f_max/2]], otherwise
    [[0, f_max/2]], in Python's arithmetic. *)
Definition spec_freqSpecsRange (rangeType f_max : value) : outcome value :=
  if Py.eq_str rangeType "whole" then Ok (VList [VInt 0; f_max])
  else if Py.eq_str rangeType "sym" then
    n ← Py.neg f_max;
    lo ← Py.truediv_r n 2;
    hi ← Py.truediv_r f_max 2;
    Ok (VList [lo; hi])
  else
    hi ← Py.truediv_r f_max 2;
    Ok (VList [VInt 0; hi]).

(** * The invariant on the sample period *)

(** [T_S] holds the value that [1./f_S] evaluates to. *)
Definition T_S_inverse (d : gmap string value) : Prop :=
  ∃ f_S T_S,
    d !! "f_S" = Some f_S ∧ d !! "T_S" = Some T_S ∧
    Py.truediv_l 1 f_S = Ok T_S.

(** The test [T_S == 1/f_S] as Python evaluates it; [None] when an entry is
    missing, the division raises or the entries are not both floats or both
    ints. *)
Definition T_S_eq_inverse (d : gmap string value) : option bool :=
  match d !! "f_S", d !! "T_S" with
  | Some f_S, Some T_S =>
      match Py.truediv_l 1 f_S with
      | Ok q => Py.eq_num T_S q
      | Raise _ => None
      end
  | _, _ => None
  end.

(** * A concrete widget *)

(** Stand-ins for what the module imports, to run the methods on an example:
    an FFT length, a printer for [str] and [params['FMT'].format] (the text
    shown plays no role in the properties), an evaluator that accepts one
    text and raises on the others, and [qget_cmb_box] as the data of the
    current entry. *)
Definition N_FFT_2048 : value := VInt 2048.

Definition show (v : value) : string :=
  match v with
  | VNone => "None"
  | VBool b => if b then "True" else "False"
  | VInt _ | VFloat _ => "<number>"
  | VStr t => t
  | VList _ => "<list>"
  end.

Definition eval_48000 (expr : string) (fallback : value) : outcome value :=
  if String.eqb expr "48000" then Ok (VFloat 48000)
  else Raise (ForeignError "safe_eval").

Definition current_data (c : QComboBox) : value :=
  if currentIndex c <? 0 then VNone
  else match items c !! Z.to_nat (currentIndex c) with
       | Some (_, d) => d
       | None => VNone
       end.

(** A dictionary for a sampling frequency of 1000 Hz. *)
Definition fil_1kHz : gmap string value :=
  <["f_S" := VFloat 1000]>
    (<["T_S" := VFloat (1 / 1000)]>
       (<["f_max" := VFloat 1000]>
          (<["freq_specs_unit" := VStr "Hz"]>
             (<["freqSpecsRangeType" := VStr "half"]>
                (<["freqSpecsRange" := VList [VInt 0; VFloat 500]]>
                   (<["freq_specs_sort" := VBool true]> ∅)))))).

(** The widget over it, showing Hz, and the same with a text typed into the
    sampling-frequency field. *)
Definition widget_Hz : world :=
  with_cmbUnits {| items := units_items; currentIndex := 3 |}
    (constructed show fil_1kHz (VFloat 1000)).

Definition widget_typed (t : string) : world :=
  with_spec_edited true
    (with_ledF_S {| text := t; ledVisible := true |} widget_Hz).

Definition select (i : Z) : M unit :=
  dispatch N_FFT_2048 show show eval_48000 current_data
    (cmbUnits_currentIndexChanged i).

(** The same widget with entry [i] of the unit box current, and with
    another dictionary. *)
Definition widget_at (i : Z) : world :=
  with_cmbUnits {| items := units_items; currentIndex := i |} widget_Hz.

Definition widget_with (d : gmap string value) : world := with_fil d widget_Hz.

(** [widget_Hz] after f_Ny was selected, with Hz current again. *)
Definition widget_back_to_Hz : world :=
  with_cmbUnits {| items := units_items; currentIndex := 3 |}
    (exec (select 2) widget_Hz).

(** The same with the int 0 as the saved sampling frequency. *)
Definition widget_back_from_zero : world :=
  with_fs_old (VInt 0) widget_back_to_Hz.

(** Stand-ins for the two conversions of [load_dict], and a printer that
    takes numbers only. *)
Definition no_match (l : list (string * value)) (v : value) : Z := -1.

Definition no_bool (v : value) : outcome bool := Raise TypeError.

Definition show_number (v : value) : outcome string :=
  match v with
  | VInt _ | VFloat _ => Ok "<number>"
  | VNone | VBool _ | VStr _ | VList _ => Raise TypeError
  end.



(** * Reasoning about methods *)

(** [wp m Q s]: running [m] from [s] ends in an outcome and a state that
    satisfy [Q].  Methods are total, so this is a statement about the run
    itself, whether it returns or raises. *)
Definition wp {A} (m : M A) (Q : outcome A → world → Prop) (s : world) : Prop :=
  Q (result m s) (exec m s).

(** What [wp] asks of the continuation of a bind. *)
Definition wp_next {A B} (f : A → M B) (Q : outcome B → world → Prop)
    (o : outcome A) (s : world) : Prop :=
  match o with
  | Ok a => wp (f a) Q s
  | Raise e => Q (Raise e) s
  end.

(** [keeps k m]: running [m] leaves the entry of key [k] as it was,
    whether [m] returns or raises. *)
Definition keeps {A} (k : string) (m : M A) : Prop :=
  ∀ s, fil (exec m s) !! k = fil s !! k.

Lemma wp_bind {A B} (m : M A) (f : A → M B) Q s :
  wp m (wp_next f Q) s → wp (m ≫= f) Q s.
Proof.
  unfold wp, wp_next, result, exec, mbind, M_bind.
  destruct (m s) as [[a|e] s']; auto.
Qed.

Lemma wp_ret {A} (a : A) Q s : Q (Ok a) s → wp (mret a) Q s.
Proof. auto. Qed.

Lemma wp_raise {A} e (Q : outcome A → world → Prop) s :
  Q (Raise e) s → wp (raise e) Q s.
Proof. auto. Qed.

Lemma wp_lift {A} (o : outcome A) Q s : Q o s → wp (lift o) Q s.
Proof. auto. Qed.

Lemma wp_gets {A} (f : world → A) Q s : Q (Ok (f s)) s → wp (gets f) Q s.
Proof. auto. Qed.

Lemma wp_modify f Q s : Q (Ok tt) (f s) → wp (modify f) Q s.
Proof. auto. Qed.

Lemma wp_fil_set k v Q s :
  Q (Ok tt) (with_fil (<[k := v]> (fil s)) s) → wp (fil_set k v) Q s.
Proof. auto. Qed.

Lemma wp_emit d Q s :
  Q (Ok tt) (with_sig_tx (sig_tx s ++ [d]) s) → wp (emit d) Q s.
Proof. auto. Qed.

Lemma wp_fil_get k Q s :
  Q (Py.dict_getitem (fil s) k) s → wp (fil_get k) Q s.
Proof. auto. Qed.

Lemma wp_elim {A} (m : M A) Q s : wp m Q s → Q (result m s) (exec m s).
Proof. auto. Qed.

(** Turn a goal about [result m s] and [exec m s] into a [wp]. *)
Tactic Notation "wp_start" constr(m) constr(s) :=
  pattern (result m s), (exec m s); apply (wp_elim m).

Lemma wp_mono {A} (m : M A) (Q Q' : outcome A → world → Prop) s :
  (∀ o s', Q o s' → Q' o s') → wp m Q s → wp m Q' s.
Proof. unfold wp. auto. Qed.

(** The projections of an updated world. *)
Ltac world_simpl :=
  cbn [fil sig_tx fs_old spec_edited ledF_S lblF_S_visible butLock butSort
       cmbUnits cmbFRange with_fil with_sig_tx with_fs_old with_spec_edited
       with_ledF_S with_lblF_S_visible with_butLock with_butSort with_cmbUnits
       with_cmbFRange text ledVisible isChecked icon butVisible items
       currentIndex wp_next Py.in_normalized] in *.

(** A key of the dictionary after some writes. *)
Ltac map_simpl :=
  repeat first
    [ rewrite lookup_insert_eq
    | rewrite lookup_insert_ne by discriminate ].

(** One step of symbolic execution of the primitive at the head. *)
Ltac wp_prim :=
  lazymatch goal with
  | |- wp (mbind _ _) _ _ => apply wp_bind
  | |- wp (mret _) _ _ => apply wp_ret
  | |- wp (raise _) _ _ => apply wp_raise
  | |- wp (lift _) _ _ => apply wp_lift
  | |- wp (gets _) _ _ => apply wp_gets
  | |- wp (modify _) _ _ => apply wp_modify
  | |- wp (fil_set _ _) _ _ => apply wp_fil_set
  | |- wp (emit _) _ _ => apply wp_emit
  | |- wp (fil_get _) _ _ => apply wp_fil_get
  end; world_simpl.

(** The outcome that decides how a bind goes on: read it off a hypothesis,
    or split on it. *)
Ltac wp_outcome :=
  lazymatch goal with
  | |- wp_next _ _ (Py.dict_getitem _ _) _ =>
      unfold Py.dict_getitem at 1; map_simpl;
      lazymatch goal with
      | |- wp_next _ _ (match ?l with _ => _ end) _ =>
          first [ match goal with H : l = _ |- _ => rewrite H end
                | destruct l eqn:? ]
      | |- _ => idtac
      end
  | |- wp_next _ _ ?o _ =>
      first [ match goal with H : o = _ |- _ => rewrite H end
            | destruct o eqn:? ]
  end; world_simpl.

(** A branch of the method on a boolean or on an optional local. *)
Ltac wp_branch :=
  lazymatch goal with
  | |- wp (if ?b then _ else _) _ _ =>
      first [ match goal with H : b = _ |- _ => rewrite H end
            | let v := eval vm_compute in b in
              lazymatch v with
              | true => change b with true
              | false => change b with false
              end
            | destruct b eqn:? ]
  | |- wp (match ?o with Some _ => _ | None => _ end) _ _ =>
      destruct o eqn:?
  | |- wp (let '(_, _) := ?p in _) _ _ => destruct p eqn:?
  end; world_simpl.

(** A method or helper at the head: look inside it. *)
Ltac head_of t := lazymatch t with ?f _ => head_of f | _ => t end.

Ltac wp_unfold :=
  lazymatch goal with
  | |- wp ?m _ _ => let h := head_of m in unfold h
  end.

Ltac wp_step := first [ wp_prim | wp_outcome | wp_branch | wp_unfold ].

Ltac wp_run := repeat wp_step.

(** ** Keys a method does not write *)

Lemma keeps_bind {A B} k (m : M A) (f : A → M B) :
  keeps k m → (∀ a, keeps k (f a)) → keeps k (m ≫= f).
Proof.
  intros Hm Hf s. specialize (Hm s). revert Hm.
  unfold exec, mbind, M_bind.
  destruct (m s) as [[a|e] s1] eqn:E; cbn [snd]; intros Hm; [|exact Hm].
  specialize (Hf a s1). unfold exec in Hf. congruence.
Qed.

Lemma keeps_fil_set k k' v : k' ≠ k → keeps k (fil_set k' v).
Proof. intros Hne s. apply lookup_insert_ne, Hne. Qed.

Lemma keeps_if {A} k (b : bool) (m1 m2 : M A) :
  keeps k m1 → keeps k m2 → keeps k (if b then m1 else m2).
Proof. destruct b; auto. Qed.

Ltac keeps_step :=
  lazymatch goal with
  | |- keeps _ (mbind _ _) => apply keeps_bind; [|intros ?]
  | |- keeps _ (fil_set _ _) => apply keeps_fil_set; discriminate
  | |- keeps _ (if _ then _ else _) => apply keeps_if
  | |- keeps _ (match ?x with _ => _ end) => destruct x
  | |- keeps _ ?m =>
      first [ intros ?; reflexivity
            | let h := head_of m in unfold h ]
  end.

Ltac keeps_run := repeat keeps_step.

(** * Properties *)

Section Properties.

Variable N_FFT : value.
Variable FMT_format : value → string.
Variable py_str : value → string.
Variable safe_eval : string → value → outcome value.
Variable qget_cmb_box : QComboBox → value.

#[local] Abbreviation _freq_range := (_freq_range qget_cmb_box).
#[local] Abbreviation update_UI := (update_UI N_FFT FMT_format qget_cmb_box).

#[local] Abbreviation _store_entry := (_store_entry safe_eval qget_cmb_box).
#[local] Abbreviation eventFilter := (eventFilter FMT_format py_str safe_eval qget_cmb_box).
#[local] Abbreviation dispatch := (dispatch N_FFT FMT_format py_str safe_eval qget_cmb_box).

(** ** The axis range *)

(** On a float the range of the specification is always defined. *)
Lemma spec_freqSpecsRange_float rangeType x :
  spec_freqSpecsRange rangeType (VFloat x) =
  Ok (VList (if Py.eq_str rangeType "whole" then [VInt 0; VFloat x]
             else if Py.eq_str rangeType "sym"
                  then [VFloat (- x / 2); VFloat (x / 2)]
                  else [VInt 0; VFloat (x / 2)])).
Proof.
  unfold spec_freqSpecsRange.
  destruct (Py.eq_str rangeType "whole"); [reflexivity|].
  destruct (Py.eq_str rangeType "sym"); reflexivity.
Qed.

(** C2: after [_freq_range], whatever its argument [emit] and whatever
    value [f_max] holds, [freqSpecsRange] is the range the specification
    gives for the selected range type and [f_max]: [[0, f_max]] for
    ['whole'], [[-f_max/2, f_max/2]] for ['sym'], [[0, f_max/2]] otherwise.
    The method returns exactly when that range can be computed (always,
    when [f_max] is a float), and raises the arithmetic's exception
    otherwise. *)
Theorem freq_range_deterministic s emit_arg f_max :
  fil s !! "f_max" = Some f_max →
  let rangeType := qget_cmb_box (cmbFRange s) in
  let s' := exec (_freq_range emit_arg) s in
  fil s' !! "freqSpecsRangeType" = Some rangeType ∧
  fil s' !! "f_max" = Some f_max ∧
  match spec_freqSpecsRange rangeType f_max with
  | Ok range =>
      result (_freq_range emit_arg) s = Ok tt ∧
      fil s' !! "freqSpecsRange" = Some range
  | Raise e => result (_freq_range emit_arg) s = Raise e
  end ∧
  ∀ x, f_max = VFloat x →
    fil s' !! "freqSpecsRange" =
    Some (VList (if Py.eq_str rangeType "whole" then [VInt 0; VFloat x]
                 else if Py.eq_str rangeType "sym"
                      then [VFloat (- x / 2); VFloat (x / 2)]
                      else [VInt 0; VFloat (x / 2)])).
Proof.
  intros Hf rangeType s'. subst s' rangeType.
  set (rangeType := qget_cmb_box (cmbFRange s)).
  assert (Hmain :
    fil (exec (_freq_range emit_arg) s) !! "freqSpecsRangeType" = Some rangeType ∧
    fil (exec (_freq_range emit_arg) s) !! "f_max" = Some f_max ∧
    match spec_freqSpecsRange rangeType f_max with
    | Ok range =>
        result (_freq_range emit_arg) s = Ok tt ∧
        fil (exec (_freq_range emit_arg) s) !! "freqSpecsRange" = Some range
    | Raise e => result (_freq_range emit_arg) s = Raise e
    end).
  { wp_start (_freq_range emit_arg) s.
    unfold spec_freqSpecsRange. subst rangeType.
    wp_run; cbn [mbind outcome_bind];
      repeat match goal with H : _ = _ |- _ => rewrite H end;
      cbn [mbind outcome_bind]; map_simpl; auto. }
  destruct Hmain as (H1 & H2 & H3). repeat split; try assumption.
  intros x ->. rewrite spec_freqSpecsRange_float in H3. apply H3.
Qed.

(** ** Selecting a unit *)

Lemma is_normalized_cases u :
  Py.is_normalized u = true → u = "f_S" ∨ u = "f_Ny" ∨ u = "k".
Proof.
  unfold Py.is_normalized, Py.normalized_units.
  intros H%bool_decide_eq_true.
  rewrite !elem_of_union, !elem_of_singleton in H. tauto.
Qed.

(** What a call of [update_UI] with a normalized unit selected does: it
    saves [f_S] in [fs_old], writes the unit's fixed values, the scale and
    the unit, and then stops at the read of the local [idx], which only the
    other branch assigns; the range is not recomputed and nothing is
    emitted. *)
Lemma update_UI_normalized_run s f0 u :
  fil s !! "f_S" = Some f0 →
  currentText (cmbUnits s) = u →
  Py.is_normalized u = true →
  let s' := exec update_UI s in
  result update_UI s = Raise (UnboundLocalError "idx") ∧
  fs_old s' = f0 ∧
  fil s' !! "f_S" = Some (VFloat (if String.eqb u "f_Ny" then 2 else 1)) ∧
  fil s' !! "f_max" =
    Some (if String.eqb u "f_S" then VFloat 1
          else if String.eqb u "f_Ny" then VFloat 2 else N_FFT) ∧
  fil s' !! "T_S" = Some (VFloat 1) ∧
  fil s' !! "freq_specs_unit" = Some (VStr u) ∧
  fil s' !! "f_S_scale" = Some (VInt 1) ∧
  fil s' !! "freqSpecsRange" = fil s !! "freqSpecsRange" ∧
  cmbUnits s' = cmbUnits s ∧
  sig_tx s' = sig_tx s.
Proof.
  intros Hf Hu Hn s'. subst s'. wp_start update_UI s.
  wp_step. wp_prim. wp_prim. rewrite Hu.
  destruct (is_normalized_cases u Hn) as [-> | [-> | ->]];
    wp_run; map_simpl; repeat split; reflexivity.
Qed.

(** C1: a call of [update_UI] with ['f_S'] selected leaves
    [(f_S, f_max, T_S) = (1, 1, 1)] in the dictionary, with ['f_Ny']
    [(2, 2, 1)], with ['k'] [(1, N_FFT, 1)]. *)
Theorem update_UI_normalized_values s :
  is_Some (fil s !! "f_S") →
  let d := fil (exec update_UI s) in
  (currentText (cmbUnits s) = "f_S" →
     d !! "f_S" = Some (VFloat 1) ∧ d !! "f_max" = Some (VFloat 1) ∧
     d !! "T_S" = Some (VFloat 1)) ∧
  (currentText (cmbUnits s) = "f_Ny" →
     d !! "f_S" = Some (VFloat 2) ∧ d !! "f_max" = Some (VFloat 2) ∧
     d !! "T_S" = Some (VFloat 1)) ∧
  (currentText (cmbUnits s) = "k" →
     d !! "f_S" = Some (VFloat 1) ∧ d !! "f_max" = Some N_FFT ∧
     d !! "T_S" = Some (VFloat 1)).
Proof.
  intros [f0 Hf] d. subst d.
  split; [|split]; intros Hu;
    destruct (update_UI_normalized_run s f0 _ Hf Hu eq_refl)
      as (_ & _ & H1 & H2 & H3 & _);
    auto.
Qed.

(** What a call of [update_UI] with an absolute unit selected does when
    the unit stored in the dictionary is a normalized one: [f_S] and [f_max]
    are restored from [fs_old] and [T_S] becomes [1./fs_old]; nothing that
    follows writes these keys again. *)
Lemma update_UI_restore s u prev t :
  currentText (cmbUnits s) = u →
  Py.is_normalized u = false →
  fil s !! "freq_specs_unit" = Some (VStr prev) →
  Py.is_normalized prev = true →
  Py.truediv_l 1 (fs_old s) = Ok t →
  let s' := exec update_UI s in
  fil s' !! "f_S" = Some (fs_old s) ∧
  fil s' !! "f_max" = Some (fs_old s) ∧
  fil s' !! "T_S" = Some t ∧
  fs_old s' = fs_old s.
Proof.
  intros Hu Hn Hprev Hpn Ht s'. subst s'. wp_start update_UI s.
  wp_step. wp_prim. wp_prim. rewrite Hu.
  wp_run; map_simpl; repeat split; reflexivity.
Qed.

(** With an absolute unit selected and an absolute unit stored, [update_UI]
    writes neither [f_S] nor [T_S] nor [f_max]. *)
Lemma update_UI_absolute_stays s u prev :
  currentText (cmbUnits s) = u →
  Py.is_normalized u = false →
  fil s !! "freq_specs_unit" = Some prev →
  Py.in_normalized prev = Ok false →
  let s' := exec update_UI s in
  fil s' !! "f_S" = fil s !! "f_S" ∧
  fil s' !! "T_S" = fil s !! "T_S" ∧
  fil s' !! "f_max" = fil s !! "f_max".
Proof.
  intros Hu Hn Hprev Hpn s'. subst s'. wp_start update_UI s.
  wp_step. wp_prim. wp_prim. rewrite Hu.
  wp_run; map_simpl; repeat split; congruence.
Qed.

(** *** Selections in the unit combo box *)

Lemma currentText_select c i :
  items c = units_items → currentText (setCurrentIndex i c) = unit_at i.
Proof. intros H. unfold currentText, unit_at. cbn. now rewrite H. Qed.

Lemma unit_at_normalized i :
  0 ≤ i ≤ 2 →
  Py.is_normalized (unit_at i) = true ∧
  String.eqb (unit_at i) "f_Ny" = (i =? 2).
Proof.
  intros Hi. assert (i = 0 ∨ i = 1 ∨ i = 2) as [-> | [-> | ->]] by lia;
    split; reflexivity.
Qed.

Lemma unit_at_absolute j :
  3 ≤ j ≤ 6 → Py.is_normalized (unit_at j) = false.
Proof.
  intros Hj.
  assert (j = 3 ∨ j = 4 ∨ j = 5 ∨ j = 6) as [-> | [-> | [-> | ->]]] by lia;
    reflexivity.
Qed.

(** Picking one of the entries [k], [f_S], [f_Ny] (indices 0 to 2). *)
Lemma select_normalized s f0 i :
  items (cmbUnits s) = units_items →
  fil s !! "f_S" = Some f0 →
  0 ≤ i ≤ 2 →
  let s' := exec (dispatch (cmbUnits_currentIndexChanged i)) s in
  fs_old s' = f0 ∧
  fil s' !! "f_S" = Some (VFloat (if i =? 2 then 2 else 1)) ∧
  fil s' !! "T_S" = Some (VFloat 1) ∧
  (∃ prev, fil s' !! "freq_specs_unit" = Some (VStr prev) ∧
           Py.is_normalized prev = true) ∧
  items (cmbUnits s') = units_items.
Proof.
  intros Hit Hf Hi s'.
  destruct (unit_at_normalized i Hi) as [Hn Hny].
  set (s0 := with_cmbUnits (setCurrentIndex i (cmbUnits s)) s).
  assert (Hu : currentText (cmbUnits s0) = unit_at i)
    by (apply currentText_select, Hit).
  destruct (update_UI_normalized_run s0 f0 _ Hf Hu Hn)
    as (_ & H1 & H2 & _ & H3 & H4 & _ & _ & H5 & _).
  change s' with (exec update_UI s0).
  rewrite Hny in H2. repeat split; try assumption.
  - eauto.
  - now rewrite H5.
Qed.

(** Picking one of the entries [Hz], [kHz], [MHz], [GHz] (indices 3 to 6)
    while a normalized unit is stored. *)
Lemma select_absolute_restores s prev t j :
  items (cmbUnits s) = units_items →
  3 ≤ j ≤ 6 →
  fil s !! "freq_specs_unit" = Some (VStr prev) →
  Py.is_normalized prev = true →
  Py.truediv_l 1 (fs_old s) = Ok t →
  let s' := exec (dispatch (cmbUnits_currentIndexChanged j)) s in
  fil s' !! "f_S" = Some (fs_old s) ∧
  fil s' !! "f_max" = Some (fs_old s) ∧
  fil s' !! "T_S" = Some t.
Proof.
  intros Hit Hj Hprev Hpn Ht s'.
  set (s0 := with_cmbUnits (setCurrentIndex j (cmbUnits s)) s).
  assert (Hu : currentText (cmbUnits s0) = unit_at j)
    by (apply currentText_select, Hit).
  destruct (update_UI_restore s0 _ prev t Hu (unit_at_absolute j Hj) Hprev Hpn Ht)
    as (H1 & H2 & H3 & _).
  change s' with (exec update_UI s0). auto.
Qed.

(** C6: from a state whose sampling frequency is [f], selecting a
    normalized unit (k, f_S or f_Ny) and then an absolute unit (Hz, kHz,
    MHz or GHz; in particular the one selected before) leaves [f_S = f],
    [f_max = f] and [T_S = 1./f]: the first selection saves [f] in
    [fs_old], the second restores from it. *)
Theorem normalized_round_trip s f t i j :
  items (cmbUnits s) = units_items →
  fil s !! "f_S" = Some f →
  Py.truediv_l 1 f = Ok t →
  0 ≤ i ≤ 2 →
  3 ≤ j ≤ 6 →
  let s1 := exec (dispatch (cmbUnits_currentIndexChanged i)) s in
  let s2 := exec (dispatch (cmbUnits_currentIndexChanged j)) s1 in
  fs_old s1 = f ∧
  fil s2 !! "f_S" = Some f ∧
  fil s2 !! "f_max" = Some f ∧
  fil s2 !! "T_S" = Some t.
Proof.
  intros Hit Hf Ht Hi Hj s1 s2.
  destruct (select_normalized s f i Hit Hf Hi)
    as (Hold & _ & _ & (prev & Hprev & Hpn) & Hit1).
  fold s1 in Hold, Hprev, Hit1.
  rewrite <- Hold in Ht.
  destruct (select_absolute_restores s1 prev t j Hit1 Hj Hprev Hpn Ht)
    as (H1 & H2 & H3).
  fold s2 in H1, H2, H3. rewrite Hold in H1, H2. auto.
Qed.

(** C10: every selection of a normalized unit overwrites [fs_old] with the
    value [f_S] has then.  So after selecting a normalized unit A, another
    normalized unit B and then an absolute unit, [f_S] (and [f_max]) hold
    the fixed value that A assigned, 2 for f_Ny and 1 for f_S and k, and
    not the sampling frequency [f] of the start, unless [f] is that very
    value. *)
Theorem restore_point_overwritten s f a b j :
  items (cmbUnits s) = units_items →
  fil s !! "f_S" = Some f →
  0 ≤ a ≤ 2 →
  0 ≤ b ≤ 2 →
  3 ≤ j ≤ 6 →
  let s1 := exec (dispatch (cmbUnits_currentIndexChanged a)) s in
  let s2 := exec (dispatch (cmbUnits_currentIndexChanged b)) s1 in
  let s3 := exec (dispatch (cmbUnits_currentIndexChanged j)) s2 in
  let assigned := VFloat (if a =? 2 then 2 else 1) in
  fs_old s1 = f ∧
  fil s1 !! "f_S" = Some assigned ∧
  fs_old s2 = assigned ∧
  fil s3 !! "f_S" = Some assigned ∧
  fil s3 !! "f_max" = Some assigned ∧
  (f ≠ assigned → fil s3 !! "f_S" ≠ Some f).
Proof.
  intros Hit Hf Ha Hb Hj s1 s2 s3 assigned.
  destruct (select_normalized s f a Hit Hf Ha)
    as (Hold1 & Hf1 & _ & _ & Hit1).
  fold s1 in Hold1, Hf1, Hit1. fold assigned in Hf1.
  destruct (select_normalized s1 assigned b Hit1 Hf1 Hb)
    as (Hold2 & _ & _ & (prev & Hprev & Hpn) & Hit2).
  fold s2 in Hold2, Hprev, Hit2.
  assert (Ht : ∃ t, Py.truediv_l 1 (fs_old s2) = Ok t).
  { rewrite Hold2. subst assigned. destruct (a =? 2); eexists; reflexivity. }
  destruct Ht as [t Ht].
  destruct (select_absolute_restores s2 prev t j Hit2 Hj Hprev Hpn Ht)
    as (H1 & H2 & _).
  fold s3 in H1, H2. rewrite Hold2 in H1, H2.
  repeat split; try assumption.
  intros Hne. rewrite H1. congruence.
Qed.

(** ** Committing the sampling-frequency field *)

Lemma float_pos_nonzero x : (0 <? x)%float = true → (x =? 0)%float = false.
Proof.
  rewrite FloatAxioms.ltb_spec, FloatAxioms.eqb_spec.
  change (Prim2SF 0) with (S754_zero false).
  destruct (Prim2SF x) as [sg|sg| |sg m e]; cbn; try discriminate; try reflexivity.
  all: destruct sg; reflexivity.
Qed.

(** C3: when [safe_eval] returns a positive float [x] for the field text,
    committing the field (Return, Enter, or a loss of focus with the edited
    flag set) stores [f_S = x], [T_S = 1./x] and [f_max = x], recomputes
    [freqSpecsRange] from [x] and the selected range type, emits
    [view_changed:'f_S'] and nothing else, clears the edited flag and
    returns. *)
Theorem commit_accepted s event f0 x :
  commits event s →
  fil s !! "f_S" = Some f0 →
  safe_eval (text (ledF_S s)) f0 = Ok (VFloat x) →
  (0 <? x)%float = true →
  let s' := exec (eventFilter "f_S" event) s in
  let rangeType := qget_cmb_box (cmbFRange s) in
  result (eventFilter "f_S" event) s = Ok false ∧
  fil s' !! "f_S" = Some (VFloat x) ∧
  fil s' !! "T_S" = Some (VFloat (1 / x)) ∧
  fil s' !! "f_max" = Some (VFloat x) ∧
  fil s' !! "freqSpecsRange" =
    Some (VList (if Py.eq_str rangeType "whole" then [VInt 0; VFloat x]
                 else if Py.eq_str rangeType "sym"
                      then [VFloat (- x / 2); VFloat (x / 2)]
                      else [VInt 0; VFloat (x / 2)])) ∧
  sig_tx s' = sig_tx s ++ [[("sender", __name__); ("view_changed", "f_S")]] ∧
  spec_edited s' = false.
Proof.
  intros Hc Hf He Hx s' rangeType. subst s' rangeType.
  assert (Ht : Py.truediv_l 1 (VFloat x) = Ok (VFloat (1 / x))).
  { unfold Py.truediv_l, Py.float_div; cbn.
    now rewrite (float_pos_nonzero x Hx). }
  assert (Hn : Py.neg (VFloat x) = Ok (VFloat (- x))) by reflexivity.
  assert (Hlo : Py.truediv_r (VFloat (- x)) 2 = Ok (VFloat (- x / 2)))
    by reflexivity.
  assert (Hhi : Py.truediv_r (VFloat x) 2 = Ok (VFloat (x / 2)))
    by reflexivity.
  wp_start (eventFilter "f_S" event) s.
  destruct Hc as [-> | [-> | [-> Hed]]];
    wp_run; map_simpl; repeat split; reflexivity.
Qed.


(** Whatever value [v] the evaluator returns, [_store_entry] stores it: [f_S]
    and [f_max] become [v] and [T_S] becomes [1./v], when that is defined.
    An evaluator that hands back the fallback it was given, the current
    [f_S], makes [_store_entry] rewrite [f_S] with its own value and
    recompute [T_S] and [f_max] from it. *)
Lemma commit_writes s event f0 v t :
  commits event s →
  fil s !! "f_S" = Some f0 →
  safe_eval (text (ledF_S s)) f0 = Ok v →
  Py.truediv_l 1 v = Ok t →
  let s' := exec (eventFilter "f_S" event) s in
  fil s' !! "f_S" = Some v ∧
  fil s' !! "T_S" = Some t ∧
  fil s' !! "f_max" = Some v.
Proof.
  intros Hc Hf He Ht s'. subst s'.
  wp_start (eventFilter "f_S" event) s.
  destruct Hc as [-> | [-> | [-> Hed]]];
    wp_run; map_simpl; repeat split; reflexivity.
Qed.

(** ** The sort flag *)

(** C8: [_store_sort_flag] always writes the state of the sort button into
    [freq_specs_sort]; it emits [specs_changed:'f_sort'] once when that
    state is true and nothing when it is false. *)
Theorem store_sort_flag_spec s :
  let s' := exec _store_sort_flag s in
  result _store_sort_flag s = Ok tt ∧
  fil s' !! "freq_specs_sort" = Some (VBool (isChecked (butSort s))) ∧
  sig_tx s' =
    sig_tx s ++
    (if isChecked (butSort s)
     then [[("sender", __name__); ("specs_changed", "f_sort")]]
     else []).
Proof.
  intros s'. subst s'. wp_start _store_sort_flag s.
  wp_run; map_simpl; rewrite ?app_nil_r; auto.
Qed.

(** ** The lock *)

(** C7: [lock_fs] with the button checked copies [f_S] into [f_S_locked];
    with the button unchecked it stores [None] there; either way it returns
    after emitting one [view_changed:'f_unit'] and leaves [f_S] as it was.
    Engaging and then releasing the lock leaves [f_S] unchanged and
    [f_S_locked] at [None]. *)
Theorem lock_fs_spec s f_S :
  fil s !! "f_S" = Some f_S →
  let notification := [("sender", __name__); ("view_changed", "f_unit")] in
  let s' := exec lock_fs s in
  result lock_fs s = Ok tt ∧
  fil s' !! "f_S_locked" =
    Some (if isChecked (butLock s) then f_S else VNone) ∧
  fil s' !! "f_S" = Some f_S ∧
  sig_tx s' = sig_tx s ++ [notification] ∧
  let engaged := exec lock_fs (with_butLock (setChecked true (butLock s)) s) in
  let released :=
    exec lock_fs (with_butLock (setChecked false (butLock engaged)) engaged) in
  fil engaged !! "f_S_locked" = Some f_S ∧
  fil released !! "f_S" = Some f_S ∧
  fil released !! "f_S_locked" = Some VNone ∧
  sig_tx released = sig_tx s ++ [notification; notification].
Proof.
  intros Hf notification s'. subst s' notification.
  split; [|split; [|split; [|split]]].
  1-4: wp_start lock_fs s; wp_run; map_simpl; auto.
  cbv zeta.
  set (s1 := with_butLock (setChecked true (butLock s)) s).
  assert (H1 : fil (exec lock_fs s1) !! "f_S_locked" = Some f_S ∧
               fil (exec lock_fs s1) !! "f_S" = Some f_S ∧
               sig_tx (exec lock_fs s1) =
                 sig_tx s ++ [[("sender", __name__); ("view_changed", "f_unit")]]).
  { wp_start lock_fs s1. subst s1. wp_run; map_simpl; auto. }
  destruct H1 as (Ha & Hb & Hc).
  split; [exact Ha|].
  set (s2 := with_butLock _ (exec lock_fs s1)).
  assert (Hf2 : fil s2 !! "f_S" = Some f_S) by exact Hb.
  assert (Hs2 : sig_tx s2 = sig_tx (exec lock_fs s1)) by reflexivity.
  assert (Hc2 : isChecked (butLock s2) = false) by reflexivity.
  clearbody s2. rewrite Hc in Hs2.
  wp_start lock_fs s2. wp_run; map_simpl.
  rewrite Hs2, <- app_assoc. auto.
Qed.

(** ** What the wired handlers leave alone *)

(** C9: the lock button's [clicked] is connected to [update_UI], and no
    slot connected in [_construct_UI] reaches [lock_fs]: whatever the
    event, and in particular a click on the lock button, the step the
    widget performs leaves [f_S_locked] as it was. *)
Theorem dispatch_keeps_f_S_locked e s :
  fil (exec (dispatch e) s) !! "f_S_locked" = fil s !! "f_S_locked" ∧
  exec (dispatch butLock_clicked) s =
    exec update_UI (with_butLock (toggled (butLock s)) s) ∧
  fil (exec (dispatch butLock_clicked) s) !! "f_S_locked" =
    fil s !! "f_S_locked".
Proof.
  assert (H : ∀ e, keeps "f_S_locked" (dispatch e)).
  { intros e'. keeps_run. }
  split; [apply H|]. split; [reflexivity|apply H].
Qed.

(** ** The sample period *)

(** C5, as the code has it: [T_S] is [1./f_S] after [update_UI] with
    ['f_S'] or ['k'] selected, after [update_UI] restores the sampling
    frequency for an absolute unit (when [1./fs_old] is defined) and after
    the field is committed with an accepted positive value.  With ['f_Ny']
    selected [update_UI] leaves [f_S = 2] and [T_S = 1].  [update_UI] with
    an absolute unit selected and an absolute unit stored, [lock_fs],
    [_freq_range] and [_store_sort_flag] write neither [f_S] nor [T_S]. *)
Theorem T_S_inverse_where_written s :
  (is_Some (fil s !! "f_S") →
   currentText (cmbUnits s) = "f_S" ∨ currentText (cmbUnits s) = "k" →
   T_S_inverse (fil (exec update_UI s))) ∧
  (is_Some (fil s !! "f_S") →
   currentText (cmbUnits s) = "f_Ny" →
   fil (exec update_UI s) !! "f_S" = Some (VFloat 2) ∧
   fil (exec update_UI s) !! "T_S" = Some (VFloat 1)) ∧
  (∀ prev t,
     Py.is_normalized (currentText (cmbUnits s)) = false →
     fil s !! "freq_specs_unit" = Some (VStr prev) →
     Py.is_normalized prev = true →
     Py.truediv_l 1 (fs_old s) = Ok t →
     T_S_inverse (fil (exec update_UI s))) ∧
  (∀ prev,
     Py.is_normalized (currentText (cmbUnits s)) = false →
     fil s !! "freq_specs_unit" = Some prev →
     Py.in_normalized prev = Ok false →
     fil (exec update_UI s) !! "f_S" = fil s !! "f_S" ∧
     fil (exec update_UI s) !! "T_S" = fil s !! "T_S") ∧
  (∀ event f0 x,
     commits event s →
     fil s !! "f_S" = Some f0 →
     safe_eval (text (ledF_S s)) f0 = Ok (VFloat x) →
     (0 <? x)%float = true →
     T_S_inverse (fil (exec (eventFilter "f_S" event) s))) ∧
  (∀ k, k = "f_S" ∨ k = "T_S" →
     fil (exec lock_fs s) !! k = fil s !! k ∧
     (∀ emit_arg, fil (exec (_freq_range emit_arg) s) !! k = fil s !! k) ∧
     fil (exec _store_sort_flag s) !! k = fil s !! k).
Proof.
  split; [|split; [|split; [|split; [|split]]]].
  - intros [f0 Hf] Hu.
    assert (Hn : Py.is_normalized (currentText (cmbUnits s)) = true)
      by (destruct Hu as [-> | ->]; reflexivity).
    destruct (update_UI_normalized_run s f0 _ Hf eq_refl Hn)
      as (_ & _ & H1 & _ & H2 & _).
    exists (VFloat 1), (VFloat 1). rewrite H2.
    destruct Hu as [Hu | Hu]; rewrite Hu in H1; auto.
  - intros [f0 Hf] Hu.
    destruct (update_UI_normalized_run s f0 _ Hf Hu eq_refl)
      as (_ & _ & H1 & _ & H2 & _).
    auto.
  - intros prev t Hn Hprev Hpn Ht.
    destruct (update_UI_restore s _ prev t eq_refl Hn Hprev Hpn Ht)
      as (H1 & _ & H2 & _).
    exists (fs_old s), t. auto.
  - intros prev Hn Hprev Hpn.
    destruct (update_UI_absolute_stays s _ prev eq_refl Hn Hprev Hpn)
      as (H1 & H2 & _).
    auto.
  - intros event f0 x Hc Hf He Hx.
    assert (Ht : Py.truediv_l 1 (VFloat x) = Ok (VFloat (1 / x))).
    { unfold Py.truediv_l, Py.float_div; cbn.
      now rewrite (float_pos_nonzero x Hx). }
    destruct (commit_writes s event f0 _ _ Hc Hf He Ht) as (H1 & H2 & _).
    exists (VFloat x), (VFloat (1 / x)). auto.
  - intros k Hk.
    assert (Hl : keeps k lock_fs)
      by (destruct Hk as [-> | ->]; keeps_run).
    assert (Hr : ∀ emit_arg, keeps k (_freq_range emit_arg))
      by (intros emit_arg; destruct Hk as [-> | ->]; keeps_run).
    assert (Hs : keeps k _store_sort_flag)
      by (destruct Hk as [-> | ->]; keeps_run).
    split; [apply Hl|]. split; [intros emit_arg; apply Hr | apply Hs].
Qed.

(** ** Construction *)

(** [_construct_UI] selects entry 1 of the unit combo box, ['f_S'], before
    its first [update_UI]: that call takes the normalized branch and stops
    at the read of [idx]. *)
Lemma init_raises fil0 f_S :
  fil0 !! "f_S" = Some f_S →
  (__init__ N_FFT FMT_format py_str qget_cmb_box fil0).1 =
    Raise (UnboundLocalError "idx").
Proof.
  intros Hf. unfold __init__. rewrite Hf. cbn [fst].
  apply (update_UI_normalized_run (constructed py_str fil0 f_S) f_S "f_S");
    [exact Hf | reflexivity | reflexivity].
Qed.

End Properties.

(** * The concrete widget at work *)

(** The invariant holds in [widget_Hz], also as Python tests it. *)
Example widget_Hz_T_S : T_S_eq_inverse (fil widget_Hz) = Some true.
Proof. vm_compute. reflexivity. Qed.

(** The scenario of the specification: from 1000 Hz select f_Ny, then Hz,
    then the symmetric range. *)
Example scenario_f_Ny_Hz_sym :
  let s1 := exec (select 2) widget_Hz in
  let s2 := exec (select 3) s1 in
  let s3 :=
    exec (dispatch N_FFT_2048 show show eval_48000 current_data
            (cmbFRange_currentIndexChanged 2)) s2 in
  (fil s1 !! "f_S", fil s1 !! "f_max", fil s1 !! "T_S") =
    (Some (VFloat 2), Some (VFloat 2), Some (VFloat 1)) ∧
  (fil s2 !! "f_S", fil s2 !! "f_max", fil s2 !! "T_S", fil s2 !! "f_S_scale") =
    (Some (VFloat 1000), Some (VFloat 1000), Some (VFloat (1 / 1000)), Some (VFloat 1)) ∧
  fil s3 !! "freqSpecsRange" = Some (VList [VFloat (-500); VFloat 500]).
Proof. vm_compute. repeat split; reflexivity. Qed.

(** ** Instances of the theorems *)

Lemma freq_range_deterministic_witness :
  fil widget_Hz !! "f_max" = Some (VFloat 1000) ∧
  fil (exec (_freq_range current_data (VBool false)) widget_Hz)
    !! "freqSpecsRange" = Some (VList [VInt 0; VFloat 500]).
Proof.
  split; [reflexivity|].
  destruct (freq_range_deterministic current_data widget_Hz (VBool false)
              (VFloat 1000) eq_refl) as (_ & _ & _ & H).
  exact (H 1000%float eq_refl).
Defined.

Lemma update_UI_normalized_values_witness :
  is_Some (fil widget_Hz !! "f_S") ∧
  fil (exec (select 0) widget_Hz) !! "f_max" = Some N_FFT_2048.
Proof.
  assert (H : is_Some (fil widget_Hz !! "f_S")) by (eexists; reflexivity).
  split; [exact H|].
  destruct (update_UI_normalized_values N_FFT_2048 show show eval_48000
              current_data
              (with_cmbUnits (setCurrentIndex 0 (cmbUnits widget_Hz)) widget_Hz) H)
    as (_ & _ & Hk).
  destruct (Hk eq_refl) as (_ & Hmax & _). exact Hmax.
Defined.

Lemma commit_accepted_witness :
  commits FocusOut (widget_typed "48000") ∧
  fil (exec (eventFilter show show eval_48000 current_data "f_S" FocusOut)
         (widget_typed "48000")) !! "T_S" = Some (VFloat (1 / 48000)).
Proof.
  assert (Hc : commits FocusOut (widget_typed "48000"))
    by (right; right; split; reflexivity).
  split; [exact Hc|].
  destruct (commit_accepted show show eval_48000 current_data
              (widget_typed "48000") FocusOut (VFloat 1000) 48000%float
              Hc eq_refl eq_refl eq_refl) as (_ & _ & H & _).
  exact H.
Defined.



Lemma T_S_inverse_where_written_witness :
  is_Some (fil widget_Hz !! "f_S") ∧
  T_S_inverse
    (fil (exec (update_UI N_FFT_2048 show current_data)
            (with_cmbUnits (setCurrentIndex 1 (cmbUnits widget_Hz)) widget_Hz))).
Proof.
  assert (H : is_Some (fil widget_Hz !! "f_S")) by (eexists; reflexivity).
  split; [exact H|].
  destruct (T_S_inverse_where_written N_FFT_2048 show show eval_48000 current_data
              (with_cmbUnits (setCurrentIndex 1 (cmbUnits widget_Hz)) widget_Hz))
    as (Hsel & _).
  exact (Hsel H (or_introl eq_refl)).
Defined.

(** After selecting f_Ny in [widget_Hz], where the invariant held, [f_S] is
    2 and [T_S] is 1: [T_S] is not [1/f_S], however the two are compared. *)
Lemma T_S_inverse_broken_by_f_Ny :
  fil (exec (select 2) widget_Hz) !! "f_S" = Some (VFloat 2) ∧
  fil (exec (select 2) widget_Hz) !! "T_S" = Some (VFloat 1) ∧
  T_S_eq_inverse (fil (exec (select 2) widget_Hz)) = Some false ∧
  ¬ T_S_inverse (fil (exec (select 2) widget_Hz)).
Proof.
  assert (H1 : fil (exec (select 2) widget_Hz) !! "f_S" = Some (VFloat 2))
    by (vm_compute; reflexivity).
  assert (H2 : fil (exec (select 2) widget_Hz) !! "T_S" = Some (VFloat 1))
    by (vm_compute; reflexivity).
  split; [exact H1|]. split; [exact H2|]. split; [vm_compute; reflexivity|].
  intros (f & t & Hf & Ht & Hdiv).
  rewrite H1 in Hf. rewrite H2 in Ht.
  injection Hf as <-. injection Ht as <-.
  apply (f_equal (λ o, match o with
                       | Ok (VFloat q) => PrimFloat.eqb q 1
                       | _ => false
                       end)) in Hdiv.
  vm_compute in Hdiv. discriminate.
Qed.

Lemma normalized_round_trip_witness :
  fil widget_Hz !! "f_S" = Some (VFloat 1000) ∧
  fil (exec (select 3) (exec (select 2) widget_Hz)) !! "f_S" =
    Some (VFloat 1000).
Proof.
  split; [reflexivity|].
  destruct (normalized_round_trip N_FFT_2048 show show eval_48000 current_data
              widget_Hz (VFloat 1000) (VFloat (1 / 1000)) 2 3
              eq_refl eq_refl eq_refl ltac:(lia) ltac:(lia))
    as (_ & H & _).
  exact H.
Defined.

Lemma lock_fs_spec_witness :
  fil widget_Hz !! "f_S" = Some (VFloat 1000) ∧
  fil (exec lock_fs widget_Hz) !! "f_S_locked" = Some (VFloat 1000).
Proof.
  split; [reflexivity|].
  destruct (lock_fs_spec widget_Hz (VFloat 1000) eq_refl) as (_ & H & _).
  exact H.
Defined.

Lemma restore_point_overwritten_witness :
  fil widget_Hz !! "f_S" = Some (VFloat 1000) ∧
  fil (exec (select 3) (exec (select 1) (exec (select 2) widget_Hz))) !! "f_S" =
    Some (VFloat 2).
Proof.
  split; [reflexivity|].
  destruct (restore_point_overwritten N_FFT_2048 show show eval_48000
              current_data widget_Hz (VFloat 1000) 2 1 3
              eq_refl eq_refl ltac:(lia) ltac:(lia) ltac:(lia))
    as (_ & _ & _ & H & _).
  exact H.
Defined.

(** * Further properties of the methods *)

Lemma normalized_unit_cases u :
  Py.is_normalized u = true → u = "f_S" ∨ u = "f_Ny" ∨ u = "k".
Proof.
  unfold Py.is_normalized, Py.normalized_units.
  intros H%bool_decide_eq_true.
  rewrite !elem_of_union, !elem_of_singleton in H. tauto.
Qed.

Lemma currentText_at c i :
  items c = units_items → currentIndex c = i → currentText c = unit_at i.
Proof. intros Hit <-. unfold currentText, unit_at. cbn. now rewrite Hit. Qed.

Lemma absolute_unit_cases i :
  3 ≤ i ≤ 6 → i = 3 ∨ i = 4 ∨ i = 5 ∨ i = 6.
Proof. lia. Qed.

Section MoreProperties.

Variable N_FFT : value.
Variable FMT_format : value → string.
Variable py_str : value → string.
Variable safe_eval : string → value → outcome value.
Variable qget_cmb_box : QComboBox → value.
Variable try_FMT_format : value → outcome string.
Variable findData_other : list (string * value) → value → Z.
Variable bool_argument : value → outcome bool.

#[local] Abbreviation _freq_range := (_freq_range qget_cmb_box).
#[local] Abbreviation update_UI := (update_UI N_FFT FMT_format qget_cmb_box).
#[local] Abbreviation eventFilter := (eventFilter FMT_format py_str safe_eval qget_cmb_box).
#[local] Abbreviation dispatch := (dispatch N_FFT FMT_format py_str safe_eval qget_cmb_box).
#[local] Abbreviation load_dict := (load_dict try_FMT_format findData_other bool_argument).

(** ** [update_UI] *)

(** X1: with a normalized unit selected (and [f_S] in the dictionary),
    [update_UI] never returns: it raises [UnboundLocalError] for [idx].  By
    then it has written the scale 1, the unit and the plot unit (['f_S'] for
    ['k']) and shown the new [f_S] in the field; it has not recomputed the
    range, not written the time unit or the axis labels, and emitted
    nothing. *)
Theorem update_UI_normalized_raises s f0 :
  fil s !! "f_S" = Some f0 →
  Py.is_normalized (currentText (cmbUnits s)) = true →
  let u := currentText (cmbUnits s) in
  let s' := exec update_UI s in
  result update_UI s = Raise (UnboundLocalError "idx") ∧
  sig_tx s' = sig_tx s ∧
  fil s' !! "f_S_scale" = Some (VInt 1) ∧
  fil s' !! "freq_specs_unit" = Some (VStr u) ∧
  fil s' !! "plt_fUnit" = Some (VStr (if String.eqb u "k" then "f_S" else u)) ∧
  text (ledF_S s') =
    FMT_format (VFloat (if String.eqb u "f_Ny" then 2 else 1)) ∧
  (∀ k, k ∈ ["freqSpecsRange"; "freqSpecsRangeType"; "plt_tUnit";
             "plt_fLabel"; "plt_tLabel"] →
        fil s' !! k = fil s !! k).
Proof.
  intros Hf Hn u s'. subst s' u.
  set (u := currentText (cmbUnits s)) in *.
  assert (Hu : currentText (cmbUnits s) = u) by reflexivity.
  clearbody u.
  wp_start update_UI s.
  wp_step. wp_prim. wp_prim. rewrite Hu.
  destruct (normalized_unit_cases u Hn) as [-> | [-> | ->]];
    wp_run; map_simpl; repeat split; try reflexivity;
    intros k Hk; repeat (apply elem_of_cons in Hk as [-> | Hk]);
    try (apply elem_of_nil in Hk; contradiction);
    map_simpl; reflexivity.
Qed.

(** X2: constructing the widget always fails.  Without [f_S] in the
    dictionary [_construct_UI] raises [KeyError] and leaves the dictionary
    alone; with it, the first [update_UI] runs with ['f_S'] selected and
    raises [UnboundLocalError]. *)
Theorem init_always_raises fil0 :
  (__init__ N_FFT FMT_format py_str qget_cmb_box fil0).1 =
    match fil0 !! "f_S" with
    | Some _ => Raise (UnboundLocalError "idx")
    | None => Raise (KeyError "f_S")
    end ∧
  (fil0 !! "f_S" = None →
   (__init__ N_FFT FMT_format py_str qget_cmb_box fil0).2 = fil0).
Proof.
  split.
  - destruct (fil0 !! "f_S") as [f_S|] eqn:Hf.
    + exact (init_raises N_FFT FMT_format py_str safe_eval qget_cmb_box
               fil0 f_S Hf).
    + unfold __init__. now rewrite Hf.
  - intros Hf. unfold __init__. now rewrite Hf.
Qed.

(** What the absolute branch reads off entry [i] of the unit box. *)
Lemma absolute_entry s i :
  items (cmbUnits s) = units_items →
  currentIndex (cmbUnits s) = i →
  3 ≤ i ≤ 6 →
  currentText (cmbUnits s) = unit_at i ∧
  Py.is_normalized (unit_at i) = false ∧
  String.eqb (unit_at i) "k" = false ∧
  (if String.eqb (unit_at i) "Hz" then VFloat 1
   else if String.eqb (unit_at i) "kHz" then VFloat 1e3
   else if String.eqb (unit_at i) "MHz" then VFloat 1e6
   else if String.eqb (unit_at i) "GHz" then VFloat 1e9
   else VInt 1) =
    VFloat (if i =? 3 then 1 else if i =? 4 then 1e3
            else if i =? 5 then 1e6 else 1e9) ∧
  Py.getitem t_units (currentIndex (cmbUnits s)) =
    Ok (if i =? 3 then "s" else if i =? 4 then "ms"
        else if i =? 5 then "$\mu$s" else "ns").
Proof.
  intros Hit Hi Hr.
  split; [apply currentText_at; assumption|].
  rewrite Hi.
  destruct (absolute_unit_cases i Hr) as [-> | [-> | [-> | ->]]];
    repeat split; reflexivity.
Qed.

(** The arithmetic of the range on a float. *)
Lemma range_arithmetic x :
  Py.neg (VFloat x) = Ok (VFloat (- x)) ∧
  Py.truediv_r (VFloat (- x)) 2 = Ok (VFloat (- x / 2)) ∧
  Py.truediv_r (VFloat x) 2 = Ok (VFloat (x / 2)).
Proof. repeat split; reflexivity. Qed.

(** X3: with an absolute unit selected (entry 3 to 6 of the unit box), an
    absolute unit stored and a float [f_max], [update_UI] returns after
    emitting exactly one [view_changed:'f_unit'].  It stores the scale 1,
    1e3, 1e6 or 1e9, the unit, the time unit s, ms, $\mu$s or ns and the
    range for [f_max], and leaves [f_S], [T_S], [f_max] and [fs_old] as they
    were: changing between absolute units changes no frequency. *)
Theorem update_UI_absolute_returns s i prev x :
  items (cmbUnits s) = units_items →
  currentIndex (cmbUnits s) = i →
  3 ≤ i ≤ 6 →
  fil s !! "freq_specs_unit" = Some prev →
  Py.in_normalized prev = Ok false →
  fil s !! "f_max" = Some (VFloat x) →
  let s' := exec update_UI s in
  let rangeType := qget_cmb_box (cmbFRange s) in
  result update_UI s = Ok tt ∧
  sig_tx s' = sig_tx s ++ [[("sender", __name__); ("view_changed", "f_unit")]] ∧
  fil s' !! "f_S_scale" =
    Some (VFloat (if i =? 3 then 1 else if i =? 4 then 1e3
                  else if i =? 5 then 1e6 else 1e9)) ∧
  fil s' !! "freq_specs_unit" = Some (VStr (unit_at i)) ∧
  fil s' !! "plt_fUnit" = Some (VStr (unit_at i)) ∧
  fil s' !! "plt_tUnit" =
    Some (VStr (if i =? 3 then "s" else if i =? 4 then "ms"
                else if i =? 5 then "$\mu$s" else "ns")) ∧
  fil s' !! "freqSpecsRange" =
    Some (VList (if Py.eq_str rangeType "whole" then [VInt 0; VFloat x]
                 else if Py.eq_str rangeType "sym"
                      then [VFloat (- x / 2); VFloat (x / 2)]
                      else [VInt 0; VFloat (x / 2)])) ∧
  fil s' !! "f_S" = fil s !! "f_S" ∧
  fil s' !! "T_S" = fil s !! "T_S" ∧
  fil s' !! "f_max" = fil s !! "f_max" ∧
  fs_old s' = fs_old s.
Proof.
  intros Hit Hi Hr Hprev Hpn Hmax s' rangeType. subst s' rangeType.
  destruct (range_arithmetic x) as (Hneg & Hlo & Hhi).
  destruct (absolute_entry s i Hit Hi Hr) as (Hu & Hn & Hk & Hsc & Hg).
  wp_start update_UI s.
  wp_step. wp_prim. wp_prim. rewrite Hu.
  set (u := unit_at i) in *. clearbody u.
  wp_run; map_simpl; rewrite ?Hmax, ?Hk, ?Hsc;
    repeat split; try reflexivity; congruence.
Qed.

(** X4: with an absolute unit selected while a normalized unit is stored
    and [fs_old] a nonzero float [y], [update_UI] returns after emitting
    exactly one [view_changed:'f_unit']: it has restored [f_S = f_max = y]
    and [T_S = 1./y], shown [y] in the field, stored the unit and its scale,
    and recomputed the range from [y], not from the [f_max] it found. *)
Theorem update_UI_restore_returns s i prev y :
  items (cmbUnits s) = units_items →
  currentIndex (cmbUnits s) = i →
  3 ≤ i ≤ 6 →
  fil s !! "freq_specs_unit" = Some (VStr prev) →
  Py.is_normalized prev = true →
  fs_old s = VFloat y →
  (y =? 0)%float = false →
  let s' := exec update_UI s in
  let rangeType := qget_cmb_box (cmbFRange s) in
  result update_UI s = Ok tt ∧
  sig_tx s' = sig_tx s ++ [[("sender", __name__); ("view_changed", "f_unit")]] ∧
  fil s' !! "f_S" = Some (VFloat y) ∧
  fil s' !! "f_max" = Some (VFloat y) ∧
  fil s' !! "T_S" = Some (VFloat (1 / y)) ∧
  text (ledF_S s') = FMT_format (VFloat y) ∧
  fil s' !! "freq_specs_unit" = Some (VStr (unit_at i)) ∧
  fil s' !! "f_S_scale" =
    Some (VFloat (if i =? 3 then 1 else if i =? 4 then 1e3
                  else if i =? 5 then 1e6 else 1e9)) ∧
  fil s' !! "freqSpecsRange" =
    Some (VList (if Py.eq_str rangeType "whole" then [VInt 0; VFloat y]
                 else if Py.eq_str rangeType "sym"
                      then [VFloat (- y / 2); VFloat (y / 2)]
                      else [VInt 0; VFloat (y / 2)])).
Proof.
  intros Hit Hi Hr Hprev Hpn Hold Hy s' rangeType. subst s' rangeType.
  destruct (range_arithmetic y) as (Hneg & Hlo & Hhi).
  destruct (absolute_entry s i Hit Hi Hr) as (Hu & Hn & Hk & Hsc & Hg).
  assert (Ht : Py.truediv_l 1 (VFloat y) = Ok (VFloat (1 / y))).
  { unfold Py.truediv_l, Py.float_div; cbn. now rewrite Hy. }
  wp_start update_UI s.
  wp_step. wp_prim. wp_prim. rewrite Hu.
  set (u := unit_at i) in *. clearbody u.
  destruct s as [d sg old ed led lbl lock srt units rng].
  world_simpl. subst old.
  wp_run; map_simpl; rewrite ?Hk, ?Hsc;
    repeat split; try reflexivity; congruence.
Qed.

(** X5: when the restore finds a zero in [fs_old] (the float or int 0, or
    [False]), [update_UI] raises [ZeroDivisionError] half-way: [f_S] and
    [f_max] already hold that zero, [T_S] and the stored unit are the old
    ones, and nothing is emitted. *)
Theorem update_UI_restore_zero s prev y :
  Py.is_normalized (currentText (cmbUnits s)) = false →
  fil s !! "freq_specs_unit" = Some (VStr prev) →
  Py.is_normalized prev = true →
  Py.as_float (fs_old s) = Ok y →
  (y =? 0)%float = true →
  let s' := exec update_UI s in
  result update_UI s = Raise ZeroDivisionError ∧
  fil s' !! "f_S" = Some (fs_old s) ∧
  fil s' !! "f_max" = Some (fs_old s) ∧
  fil s' !! "T_S" = fil s !! "T_S" ∧
  fil s' !! "freq_specs_unit" = Some (VStr prev) ∧
  sig_tx s' = sig_tx s.
Proof.
  intros Hn Hprev Hpn Hy Hz s'. subst s'.
  assert (Ht : Py.truediv_l 1 (fs_old s) = Raise ZeroDivisionError).
  { unfold Py.truediv_l. rewrite Hy. unfold Py.float_div. now rewrite Hz. }
  set (u := currentText (cmbUnits s)) in *.
  assert (Hu : currentText (cmbUnits s) = u) by reflexivity.
  clearbody u.
  wp_start update_UI s.
  wp_step. wp_prim. wp_prim. rewrite Hu.
  wp_run; map_simpl; repeat split; congruence.
Qed.

(** X6: the key [update_UI] reads first decides whether it does anything.
    With a normalized unit selected and no [f_S] in the dictionary it raises
    [KeyError] for ['f_S']; with an absolute unit selected and no
    [freq_specs_unit] it raises [KeyError] for that key.  Either way the
    dictionary and [fs_old] are untouched and nothing is emitted. *)
Theorem update_UI_missing_key s :
  let key :=
    if Py.is_normalized (currentText (cmbUnits s)) then "f_S"
    else "freq_specs_unit" in
  fil s !! key = None →
  let s' := exec update_UI s in
  result update_UI s = Raise (KeyError key) ∧
  fil s' = fil s ∧
  fs_old s' = fs_old s ∧
  sig_tx s' = sig_tx s.
Proof.
  intros key Hk s'. subst s' key.
  set (u := currentText (cmbUnits s)) in *.
  assert (Hu : currentText (cmbUnits s) = u) by reflexivity.
  clearbody u.
  wp_start update_UI s.
  wp_step. wp_prim. wp_prim. rewrite Hu.
  destruct (Py.is_normalized u) eqn:Hn;
    wp_run; repeat split; reflexivity.
Qed.

(** X7: however [update_UI] ends, the sampling-frequency field, its label
    and the lock button are visible exactly when the selected unit is not a
    normalized one. *)
Theorem update_UI_visibility s :
  let shown := negb (Py.is_normalized (currentText (cmbUnits s))) in
  let s' := exec update_UI s in
  ledVisible (ledF_S s') = shown ∧
  lblF_S_visible s' = shown ∧
  butVisible (butLock s') = shown.
Proof.
  intros shown s'. subst s' shown.
  set (u := currentText (cmbUnits s)) in *.
  assert (Hu : currentText (cmbUnits s) = u) by reflexivity.
  clearbody u.
  wp_start update_UI s.
  wp_step. wp_prim. wp_prim. rewrite Hu.
  wp_run; repeat split; reflexivity.
Qed.

(** X8: with no entry of the unit box current (index -1, text empty),
    [update_UI] takes the absolute branch with an unknown unit: the scale
    stays the int 1, the empty unit is stored, and the time unit is the last
    one of [t_units], ns, because [t_units[-1]] counts from the end. *)
Theorem update_UI_no_selection s prev x :
  currentIndex (cmbUnits s) = -1 →
  fil s !! "freq_specs_unit" = Some prev →
  Py.in_normalized prev = Ok false →
  fil s !! "f_max" = Some (VFloat x) →
  let s' := exec update_UI s in
  result update_UI s = Ok tt ∧
  fil s' !! "f_S_scale" = Some (VInt 1) ∧
  fil s' !! "freq_specs_unit" = Some (VStr "") ∧
  fil s' !! "plt_tUnit" = Some (VStr "ns") ∧
  fil s' !! "plt_tLabel" = Some (VStr "$t$ in ns$\; \rightarrow$") ∧
  fil s' !! "plt_fLabel" = Some (VStr "$f$ in $\; \rightarrow$").
Proof.
  intros Hi Hprev Hpn Hmax s'. subst s'.
  destruct (range_arithmetic x) as (Hneg & Hlo & Hhi).
  assert (Hu : currentText (cmbUnits s) = "")
    by (unfold currentText; now rewrite Hi).
  assert (Hg : Py.getitem t_units (currentIndex (cmbUnits s)) = Ok "ns")
    by (now rewrite Hi).
  wp_start update_UI s.
  wp_step. wp_prim. wp_prim. rewrite Hu.
  wp_run; map_simpl; repeat split; reflexivity.
Qed.

(** ** [_freq_range] *)

(** The dictionary [_freq_range] leaves: the range type is always written,
    the range when [f_max] is there and the arithmetic succeeds.  The range
    box itself is not touched. *)
Lemma freq_range_fil s emit_arg :
  let rangeType := qget_cmb_box (cmbFRange s) in
  fil (exec (_freq_range emit_arg) s) =
    match fil s !! "f_max" with
    | Some f_max =>
        match spec_freqSpecsRange rangeType f_max with
        | Ok range =>
            <["freqSpecsRange" := range]>
              (<["freqSpecsRangeType" := rangeType]> (fil s))
        | Raise _ => <["freqSpecsRangeType" := rangeType]> (fil s)
        end
    | None => <["freqSpecsRangeType" := rangeType]> (fil s)
    end ∧
  cmbFRange (exec (_freq_range emit_arg) s) = cmbFRange s.
Proof.
  intros rangeType. subst rangeType.
  unfold spec_freqSpecsRange. cbv [mbind outcome_bind].
  wp_start (_freq_range emit_arg) s.
  wp_run; split; reflexivity.
Qed.

(** X9: without [f_max] in the dictionary [_freq_range] raises [KeyError]
    for it, after it has already overwritten [freqSpecsRangeType]; the range
    is left as it was and nothing is emitted, whatever [emit] is. *)
Theorem freq_range_missing_f_max s emit_arg :
  fil s !! "f_max" = None →
  let s' := exec (_freq_range emit_arg) s in
  result (_freq_range emit_arg) s = Raise (KeyError "f_max") ∧
  fil s' = <["freqSpecsRangeType" := qget_cmb_box (cmbFRange s)]> (fil s) ∧
  fil s' !! "freqSpecsRange" = fil s !! "freqSpecsRange" ∧
  sig_tx s' = sig_tx s.
Proof.
  intros Hf s'. subst s'.
  wp_start (_freq_range emit_arg) s.
  wp_run; map_simpl; repeat split; reflexivity.
Qed.

(** X10: [_freq_range] is idempotent on the dictionary: a second call,
    with any argument, writes again what the first has written, whether the
    calls return or raise. *)
Theorem freq_range_idempotent s e1 e2 :
  fil (exec (_freq_range e2) (exec (_freq_range e1) s)) =
  fil (exec (_freq_range e1) s).
Proof.
  destruct (freq_range_fil (exec (_freq_range e1) s) e2) as [H2 Hc2].
  destruct (freq_range_fil s e1) as [H1 Hc1].
  cbv zeta in H1, H2. rewrite H2, Hc1. clear H2 Hc2 Hc1.
  set (t := qget_cmb_box (cmbFRange s)) in *.
  assert (Hm : fil (exec (_freq_range e1) s) !! "f_max" = fil s !! "f_max").
  { rewrite H1. destruct (fil s !! "f_max") as [m|] eqn:E;
      [destruct (spec_freqSpecsRange t m)|]; map_simpl; exact E. }
  rewrite Hm, H1.
  destruct (fil s !! "f_max") as [m|].
  - destruct (spec_freqSpecsRange t m) as [r|e].
    + apply map_eq. intros k. rewrite !lookup_insert.
      repeat case_decide; congruence.
    + apply insert_insert_eq.
  - apply insert_insert_eq.
Qed.

(** X11: a change of the range box, to any entry, emits exactly one
    [view_changed:'f_range'] when [f_max] is a float: the slot receives the
    new index as [emit], and an int counts as true there, the index 0
    included.  The range is the one for the newly selected type. *)
Theorem range_change_emits s i x :
  fil s !! "f_max" = Some (VFloat x) →
  let e := cmbFRange_currentIndexChanged i in
  let s' := exec (dispatch e) s in
  let rangeType := qget_cmb_box (setCurrentIndex i (cmbFRange s)) in
  result (dispatch e) s = Ok tt ∧
  sig_tx s' = sig_tx s ++ [[("sender", __name__); ("view_changed", "f_range")]] ∧
  currentIndex (cmbFRange s') = i ∧
  fil s' !! "freqSpecsRangeType" = Some rangeType ∧
  fil s' !! "freqSpecsRange" =
    Some (VList (if Py.eq_str rangeType "whole" then [VInt 0; VFloat x]
                 else if Py.eq_str rangeType "sym"
                      then [VFloat (- x / 2); VFloat (x / 2)]
                      else [VInt 0; VFloat (x / 2)])).
Proof.
  intros Hmax e s' rangeType. subst e s' rangeType.
  destruct (range_arithmetic x) as (Hneg & Hlo & Hhi).
  wp_start (dispatch (cmbFRange_currentIndexChanged i)) s.
  wp_run; map_simpl; repeat split; reflexivity.
Qed.

(** ** The event filter *)

(** X12: the event filter writes the dictionary and emits only when it
    commits: for an object with another name, and for every event of the
    field that is not Return, Enter or a loss of focus with the edited flag
    set, the dictionary and the emitted signals are the same afterwards. *)
Theorem eventFilter_writes_only_on_commit s objectName event :
  ¬ (objectName = "f_S" ∧ commits event s) →
  let s' := exec (eventFilter objectName event) s in
  fil s' = fil s ∧ sig_tx s' = sig_tx s.
Proof.
  intros Hnc s'. subst s'.
  wp_start (eventFilter objectName event) s.
  destruct (String.eqb objectName "f_S") eqn:Hname.
  - apply String.eqb_eq in Hname. subst objectName.
    assert (Hc : ¬ commits event s)
      by (intros Hc; apply Hnc; split; [reflexivity | exact Hc]).
    clear Hnc.
    destruct event as [| |[| | |c]|].
    + wp_run; split; reflexivity.
    + destruct (spec_edited s) eqn:Hed.
      * exfalso. apply Hc. right. right. split; [reflexivity | exact Hed].
      * wp_run; split; reflexivity.
    + exfalso. apply Hc. left. reflexivity.
    + exfalso. apply Hc. right. left. reflexivity.
    + wp_run; split; reflexivity.
    + wp_run; split; reflexivity.
    + wp_run; split; reflexivity.
  - wp_run; split; reflexivity.
Qed.

(** X13: with a float in [f_S], gaining focus and pressing Escape both
    discard an edit: the field shows [str(f_S)] and the edited flag is
    clear.  A loss of focus that follows commits nothing, whatever the field
    would evaluate to: the dictionary is unchanged, nothing is emitted, and
    the field shows the formatted [f_S]. *)
Theorem discard_then_focus_out s event y :
  event = FocusIn ∨ event = KeyPress Key_Escape →
  fil s !! "f_S" = Some (VFloat y) →
  let s1 := exec (eventFilter "f_S" event) s in
  let s2 := exec (eventFilter "f_S" FocusOut) s1 in
  result (eventFilter "f_S" event) s = Ok false ∧
  text (ledF_S s1) = py_str (VFloat y) ∧
  spec_edited s1 = false ∧
  result (eventFilter "f_S" FocusOut) s1 = Ok false ∧
  fil s2 = fil s ∧
  sig_tx s2 = sig_tx s ∧
  text (ledF_S s2) = FMT_format (VFloat y) ∧
  spec_edited s2 = false.
Proof.
  intros Hev Hf s1 s2.
  assert (H1 : result (eventFilter "f_S" event) s = Ok false ∧
               text (ledF_S s1) = py_str (VFloat y) ∧ spec_edited s1 = false ∧
               fil s1 = fil s ∧ sig_tx s1 = sig_tx s).
  { subst s1. wp_start (eventFilter "f_S" event) s.
    destruct Hev as [-> | ->]; wp_run; repeat split; reflexivity. }
  destruct H1 as (Hr1 & Ht1 & He1 & Hfil1 & Hsig1).
  assert (Hf1 : fil s1 !! "f_S" = Some (VFloat y)) by (now rewrite Hfil1).
  split; [exact Hr1|]. split; [exact Ht1|]. split; [exact He1|].
  subst s2. rewrite <- Hfil1, <- Hsig1. clearbody s1.
  wp_start (eventFilter "f_S" FocusOut) s1.
  wp_run; repeat split; first [reflexivity | assumption].
Qed.

(** X14: a key typed into the field sets the edited flag and nothing else;
    the loss of focus that follows stores the accepted value [x], emits
    [view_changed:'f_S'] once and shows the formatted [x]; a second loss of
    focus stores and emits nothing more.  The text [t] is the one the field
    holds once Qt has handled the key. *)
Theorem typed_then_focus_out s code t f0 x :
  fil s !! "f_S" = Some f0 →
  safe_eval t f0 = Ok (VFloat x) →
  (0 <? x)%float = true →
  let s1 := exec (eventFilter "f_S" (KeyPress (Key_other code))) s in
  let typed :=
    with_ledF_S {| text := t; ledVisible := ledVisible (ledF_S s1) |} s1 in
  let s2 := exec (eventFilter "f_S" FocusOut) typed in
  let s3 := exec (eventFilter "f_S" FocusOut) s2 in
  spec_edited s1 = true ∧
  fil s1 = fil s ∧
  fil s2 !! "f_S" = Some (VFloat x) ∧
  text (ledF_S s2) = FMT_format (VFloat x) ∧
  sig_tx s2 = sig_tx s ++ [[("sender", __name__); ("view_changed", "f_S")]] ∧
  fil s3 = fil s2 ∧
  sig_tx s3 = sig_tx s2.
Proof.
  intros Hf He Hx s1 typed s2 s3.
  assert (Ht : Py.truediv_l 1 (VFloat x) = Ok (VFloat (1 / x))).
  { unfold Py.truediv_l, Py.float_div; cbn.
    now rewrite (float_pos_nonzero x Hx). }
  destruct (range_arithmetic x) as (Hneg & Hlo & Hhi).
  assert (H1 : spec_edited s1 = true ∧ fil s1 = fil s ∧ sig_tx s1 = sig_tx s).
  { subst s1. wp_start (eventFilter "f_S" (KeyPress (Key_other code))) s.
    wp_run; repeat split; reflexivity. }
  destruct H1 as (He1 & Hfil1 & Hsig1).
  assert (Hty : spec_edited typed = true ∧ fil typed !! "f_S" = Some f0 ∧
                text (ledF_S typed) = t ∧ sig_tx typed = sig_tx s).
  { subst typed. cbn. rewrite Hfil1. auto. }
  destruct Hty as (Hed & Hft & Htt & Hst).
  rewrite <- Htt in He.
  assert (H2 : fil s2 !! "f_S" = Some (VFloat x) ∧
               text (ledF_S s2) = FMT_format (VFloat x) ∧
               sig_tx s2 =
                 sig_tx s ++ [[("sender", __name__); ("view_changed", "f_S")]] ∧
               spec_edited s2 = false).
  { subst s2. rewrite <- Hst. clearbody typed.
    wp_start (eventFilter "f_S" FocusOut) typed.
    wp_run; map_simpl; repeat split; reflexivity. }
  destruct H2 as (Hf2 & Ht2 & Hs2 & He2).
  repeat split; try assumption.
  all: subst s3; clearbody s2;
    wp_start (eventFilter "f_S" FocusOut) s2;
    wp_run; reflexivity.
Qed.

(** ** The lock *)

(** X15: [lock_fs] with the button checked and no [f_S] in the dictionary
    raises [KeyError] before it does anything: no key is written, the icon
    is not changed and nothing is emitted.  With the button unchecked it
    returns whatever the dictionary holds. *)
Theorem lock_fs_missing_f_S s :
  (isChecked (butLock s) = true → fil s !! "f_S" = None →
   result lock_fs s = Raise (KeyError "f_S") ∧ exec lock_fs s = s) ∧
  (isChecked (butLock s) = false →
   result lock_fs s = Ok tt ∧
   fil (exec lock_fs s) !! "f_S_locked" = Some VNone ∧
   icon (butLock (exec lock_fs s)) = ":/lock-unlocked.svg").
Proof.
  split.
  - intros Hc Hf. wp_start lock_fs s. wp_run; split; reflexivity.
  - intros Hc. wp_start lock_fs s. wp_run; map_simpl; repeat split; reflexivity.
Qed.

Lemma handle_all_keeps k events :
  (∀ e, keeps k (dispatch e)) →
  ∀ s, fil (handle_all dispatch events s) !! k = fil s !! k.
Proof.
  intros Hk. induction events as [|e events IH]; intros s; [reflexivity|].
  cbn. unfold handle_all in IH. rewrite IH. apply Hk.
Qed.

(** X16: a frequency frozen by [lock_fs] stays frozen: after [lock_fs] with
    the button checked, [f_S_locked] holds the [f_S] of that moment through
    any sequence of events of the controls, commits of a new sampling
    frequency and clicks on the lock button included. *)
Theorem locked_frequency_is_kept s f events :
  isChecked (butLock s) = true →
  fil s !! "f_S" = Some f →
  fil (handle_all dispatch events (exec lock_fs s)) !! "f_S_locked" = Some f.
Proof.
  intros Hc Hf.
  rewrite handle_all_keeps by (intros e; keeps_run).
  wp_start lock_fs s. wp_run; map_simpl; reflexivity.
Qed.

(** ** [load_dict] *)

(** X17: [load_dict] only reads the dictionary and emits nothing, however
    far it gets: the dictionary, the emitted signals, [fs_old] and the
    edited flag are the same afterwards. *)
Theorem load_dict_reads_only s :
  let s' := exec load_dict s in
  fil s' = fil s ∧
  sig_tx s' = sig_tx s ∧
  fs_old s' = fs_old s ∧
  spec_edited s' = spec_edited s.
Proof.
  intros s'. subst s'. wp_start load_dict s.
  wp_run; repeat split; reflexivity.
Qed.

Lemma findText_unit c i :
  items c = units_items → 0 ≤ i ≤ 6 → findText c (VStr (unit_at i)) = Ok i.
Proof.
  intros Hit Hi. unfold findText. rewrite Hit.
  assert (i = 0 ∨ i = 1 ∨ i = 2 ∨ i = 3 ∨ i = 4 ∨ i = 5 ∨ i = 6)
    as [-> | [-> | [-> | [-> | [-> | [-> | ->]]]]]] by lia;
    reflexivity.
Qed.

Lemma findText_unknown c u :
  items c = units_items →
  (∀ i, 0 ≤ i ≤ 6 → unit_at i ≠ u) →
  findText c (VStr u) = Ok (-1).
Proof.
  intros Hit Hu. unfold findText. rewrite Hit. cbn -[String.eqb].
  pose proof (Hu 0 ltac:(lia)) as H0. pose proof (Hu 1 ltac:(lia)) as H1.
  pose proof (Hu 2 ltac:(lia)) as H2. pose proof (Hu 3 ltac:(lia)) as H3.
  pose proof (Hu 4 ltac:(lia)) as H4. pose proof (Hu 5 ltac:(lia)) as H5.
  pose proof (Hu 6 ltac:(lia)) as H6.
  apply String.eqb_neq in H0, H1, H2, H3, H4, H5, H6.
  change (unit_at 0) with "k" in H0. change (unit_at 1) with "f_S" in H1.
  change (unit_at 2) with "f_Ny" in H2. change (unit_at 3) with "Hz" in H3.
  change (unit_at 4) with "kHz" in H4. change (unit_at 5) with "MHz" in H5.
  change (unit_at 6) with "GHz" in H6.
  now rewrite H0, H1, H2, H3, H4, H5, H6.
Qed.

Lemma findData_range c j label rangeType :
  items c = fRanges →
  0 ≤ j →
  fRanges !! Z.to_nat j = Some (label, rangeType) →
  findData findData_other c rangeType = j.
Proof.
  intros Hit Hj Hl.
  assert (Hlt : (Z.to_nat j < 3)%nat) by (apply lookup_lt_Some in Hl; exact Hl).
  assert (j = 0 ∨ j = 1 ∨ j = 2) as [-> | [-> | ->]] by lia;
    cbn in Hl; injection Hl as <- <-; unfold findData; rewrite Hit;
    reflexivity.
Qed.

Lemma findText_None c :
  items c = units_items → findText c VNone = Ok (-1).
Proof. intros Hit. unfold findText. rewrite Hit. reflexivity. Qed.

(** X18: when the format takes [f_S] and the stored unit is [None] or a
    string that is none of the seven entries, [load_dict] leaves the unit
    box without a current entry: index -1, empty text. *)
Theorem load_dict_unknown_unit s f0 formatted unit :
  items (cmbUnits s) = units_items →
  fil s !! "f_S" = Some f0 →
  try_FMT_format f0 = Ok formatted →
  fil s !! "freq_specs_unit" = Some unit →
  unit = VNone ∨ (∃ u, unit = VStr u ∧ ∀ i, 0 ≤ i ≤ 6 → unit_at i ≠ u) →
  let s' := exec load_dict s in
  text (ledF_S s') = formatted ∧
  currentIndex (cmbUnits s') = -1 ∧
  currentText (cmbUnits s') = "".
Proof.
  intros Hit Hf Hfmt Hu Hno s'. subst s'.
  assert (Hft : findText (cmbUnits s) unit = Ok (-1)).
  { destruct Hno as [-> | (u & -> & Hno)];
      [apply findText_None | apply findText_unknown]; assumption. }
  wp_start load_dict s.
  wp_run; repeat split; reflexivity.
Qed.

(** X19: with the four keys in the dictionary, [f_S] a value the format
    takes, the unit one of the seven entries, the range type the data of an
    entry of the range box and the sort flag a [bool], [load_dict] returns
    with the controls showing the dictionary: the field holds the formatted
    [f_S], the unit box and the range box are at the entries of the stored
    unit and range type, and the sort button is checked as the flag says. *)
Theorem load_dict_shows_dictionary s f0 formatted i j label rangeType b :
  items (cmbUnits s) = units_items →
  items (cmbFRange s) = fRanges →
  fil s !! "f_S" = Some f0 →
  try_FMT_format f0 = Ok formatted →
  0 ≤ i ≤ 6 →
  fil s !! "freq_specs_unit" = Some (VStr (unit_at i)) →
  0 ≤ j →
  fRanges !! Z.to_nat j = Some (label, rangeType) →
  fil s !! "freqSpecsRangeType" = Some rangeType →
  fil s !! "freq_specs_sort" = Some (VBool b) →
  let s' := exec load_dict s in
  result load_dict s = Ok tt ∧
  text (ledF_S s') = formatted ∧
  currentIndex (cmbUnits s') = i ∧
  currentText (cmbUnits s') = unit_at i ∧
  currentIndex (cmbFRange s') = j ∧
  isChecked (butSort s') = b.
Proof.
  intros Hit Hir Hf Hfmt Hi Hu Hj Hl Hrt Hb s'. subst s'.
  pose proof (findText_unit _ i Hit Hi) as Hft.
  pose proof (findData_range _ j label rangeType Hir Hj Hl) as Hfd.
  assert (Hct : currentText (setCurrentIndex i (cmbUnits s)) = unit_at i).
  { unfold currentText, unit_at. cbn. now rewrite Hit. }
  wp_start load_dict s.
  wp_run; repeat split; first [reflexivity | assumption].
Qed.


End MoreProperties.

(** ** Instances of the further properties *)

Lemma update_UI_normalized_raises_witness :
  fil (widget_at 1) !! "f_S" = Some (VFloat 1000) ∧
  result (update_UI N_FFT_2048 show current_data) (widget_at 1) =
    Raise (UnboundLocalError "idx").
Proof.
  split; [reflexivity|].
  destruct (update_UI_normalized_raises N_FFT_2048 show current_data
              (widget_at 1) (VFloat 1000) eq_refl eq_refl) as (H & _).
  exact H.
Defined.

Lemma update_UI_absolute_returns_witness :
  fil widget_Hz !! "f_max" = Some (VFloat 1000) ∧
  result (update_UI N_FFT_2048 show current_data) widget_Hz = Ok tt.
Proof.
  split; [reflexivity|].
  destruct (update_UI_absolute_returns N_FFT_2048 show current_data
              widget_Hz 3 (VStr "Hz") 1000%float
              eq_refl eq_refl ltac:(lia) eq_refl eq_refl eq_refl) as (H & _).
  exact H.
Defined.

Lemma update_UI_restore_returns_witness :
  fs_old widget_back_to_Hz = VFloat 1000 ∧
  fil (exec (update_UI N_FFT_2048 show current_data) widget_back_to_Hz)
    !! "T_S" = Some (VFloat (1 / 1000)).
Proof.
  assert (Hold : fs_old widget_back_to_Hz = VFloat 1000)
    by (vm_compute; reflexivity).
  assert (Hu : fil widget_back_to_Hz !! "freq_specs_unit" = Some (VStr "f_Ny"))
    by (vm_compute; reflexivity).
  split; [exact Hold|].
  destruct (update_UI_restore_returns N_FFT_2048 show current_data
              widget_back_to_Hz 3 "f_Ny" 1000%float
              eq_refl eq_refl ltac:(lia) Hu eq_refl Hold eq_refl)
    as (_ & _ & _ & _ & H & _).
  exact H.
Defined.

Lemma update_UI_restore_zero_witness :
  Py.as_float (fs_old widget_back_from_zero) = Ok 0%float ∧
  result (update_UI N_FFT_2048 show current_data) widget_back_from_zero =
    Raise ZeroDivisionError.
Proof.
  assert (Hu : fil widget_back_from_zero !! "freq_specs_unit" =
               Some (VStr "f_Ny")) by (vm_compute; reflexivity).
  split; [reflexivity|].
  destruct (update_UI_restore_zero N_FFT_2048 show current_data
              widget_back_from_zero "f_Ny" 0%float
              eq_refl Hu eq_refl eq_refl eq_refl) as (H & _).
  exact H.
Defined.

Lemma update_UI_missing_key_witness :
  fil (widget_with ∅) !! "freq_specs_unit" = None ∧
  result (update_UI N_FFT_2048 show current_data) (widget_with ∅) =
    Raise (KeyError "freq_specs_unit").
Proof.
  assert (Hk : fil (widget_with ∅) !!
                 (if Py.is_normalized (currentText (cmbUnits (widget_with ∅)))
                  then "f_S" else "freq_specs_unit") = None)
    by (vm_compute; reflexivity).
  split; [reflexivity|].
  destruct (update_UI_missing_key N_FFT_2048 show current_data
              (widget_with ∅) Hk) as (H & _).
  exact H.
Defined.

Lemma update_UI_no_selection_witness :
  currentIndex (cmbUnits (widget_at (-1))) = -1 ∧
  fil (exec (update_UI N_FFT_2048 show current_data) (widget_at (-1)))
    !! "plt_tUnit" = Some (VStr "ns").
Proof.
  split; [reflexivity|].
  destruct (update_UI_no_selection N_FFT_2048 show current_data
              (widget_at (-1)) (VStr "Hz") 1000%float
              eq_refl eq_refl eq_refl eq_refl) as (_ & _ & _ & H & _).
  exact H.
Defined.

Lemma freq_range_missing_f_max_witness :
  fil (widget_with ∅) !! "f_max" = None ∧
  result (_freq_range current_data (VBool true)) (widget_with ∅) =
    Raise (KeyError "f_max").
Proof.
  assert (Hk : fil (widget_with ∅) !! "f_max" = None) by reflexivity.
  split; [exact Hk|].
  destruct (freq_range_missing_f_max current_data (widget_with ∅)
              (VBool true) Hk) as (H & _).
  exact H.
Defined.

Lemma range_change_emits_witness :
  fil widget_Hz !! "f_max" = Some (VFloat 1000) ∧
  sig_tx (exec (dispatch N_FFT_2048 show show eval_48000 current_data
                  (cmbFRange_currentIndexChanged 0)) widget_Hz) =
    [[("sender", __name__); ("view_changed", "f_range")]].
Proof.
  split; [reflexivity|].
  destruct (range_change_emits N_FFT_2048 show show eval_48000 current_data
              widget_Hz 0 1000%float eq_refl) as (_ & H & _).
  exact H.
Defined.

Lemma eventFilter_writes_only_on_commit_witness :
  ¬ ("f_S" = "f_S" ∧ commits FocusIn (widget_typed "48000")) ∧
  fil (exec (eventFilter show show eval_48000 current_data "f_S" FocusIn)
         (widget_typed "48000")) = fil_1kHz.
Proof.
  assert (H : ¬ ("f_S" = "f_S" ∧ commits FocusIn (widget_typed "48000"))).
  { intros [_ [Hc | [Hc | [Hc _]]]]; discriminate Hc. }
  split; [exact H|].
  destruct (eventFilter_writes_only_on_commit show show eval_48000
              current_data (widget_typed "48000") "f_S" FocusIn H)
    as (Hfil & _).
  exact Hfil.
Defined.

Lemma discard_then_focus_out_witness :
  fil (widget_typed "48000") !! "f_S" = Some (VFloat 1000) ∧
  fil (exec (eventFilter show show eval_48000 current_data "f_S" FocusOut)
         (exec (eventFilter show show eval_48000 current_data "f_S"
                  (KeyPress Key_Escape)) (widget_typed "48000"))) = fil_1kHz.
Proof.
  split; [reflexivity|].
  destruct (discard_then_focus_out show show eval_48000 current_data
              (widget_typed "48000") (KeyPress Key_Escape) 1000%float
              (or_intror eq_refl) eq_refl)
    as (_ & _ & _ & _ & H & _).
  exact H.
Defined.

Lemma typed_then_focus_out_witness :
  eval_48000 "48000" (VFloat 1000) = Ok (VFloat 48000) ∧
  fil (exec (eventFilter show show eval_48000 current_data "f_S" FocusOut)
         (with_ledF_S {| text := "48000"; ledVisible := true |}
            (exec (eventFilter show show eval_48000 current_data "f_S"
                     (KeyPress (Key_other 48))) widget_Hz)))
    !! "f_S" = Some (VFloat 48000).
Proof.
  split; [reflexivity|].
  destruct (typed_then_focus_out show show eval_48000 current_data
              widget_Hz 48 "48000" (VFloat 1000) 48000%float
              eq_refl eq_refl eq_refl) as (_ & _ & H & _).
  exact H.
Defined.

Lemma lock_fs_missing_f_S_witness :
  isChecked (butLock (widget_with ∅)) = true ∧
  fil (widget_with ∅) !! "f_S" = None ∧
  exec lock_fs (widget_with ∅) = widget_with ∅.
Proof.
  assert (Hc : isChecked (butLock (widget_with ∅)) = true) by reflexivity.
  assert (Hk : fil (widget_with ∅) !! "f_S" = None) by reflexivity.
  split; [exact Hc|]. split; [exact Hk|].
  destruct (lock_fs_missing_f_S (widget_with ∅)) as (H & _).
  destruct (H Hc Hk) as (_ & Hs). exact Hs.
Defined.

Lemma locked_frequency_is_kept_witness :
  isChecked (butLock (widget_typed "48000")) = true ∧
  fil (handle_all (dispatch N_FFT_2048 show show eval_48000 current_data)
         [ledF_S_event (KeyPress Key_Return); butLock_clicked]
         (exec lock_fs (widget_typed "48000"))) !! "f_S_locked" =
    Some (VFloat 1000).
Proof.
  split; [reflexivity|].
  exact (locked_frequency_is_kept N_FFT_2048 show show eval_48000
           current_data (widget_typed "48000") (VFloat 1000)
           [ledF_S_event (KeyPress Key_Return); butLock_clicked]
           eq_refl eq_refl).
Defined.

Lemma load_dict_unknown_unit_witness :
  fil (widget_with (<["freq_specs_unit" := VStr "THz"]> fil_1kHz))
    !! "freq_specs_unit" = Some (VStr "THz") ∧
  show_number (VFloat 1000) = Ok "<number>" ∧
  currentIndex
    (cmbUnits (exec (load_dict show_number no_match no_bool)
                 (widget_with (<["freq_specs_unit" := VStr "THz"]> fil_1kHz)))) =
    -1.
Proof.
  assert (Hno : ∀ i, 0 ≤ i ≤ 6 → unit_at i ≠ "THz").
  { intros i Hi.
    assert (i = 0 ∨ i = 1 ∨ i = 2 ∨ i = 3 ∨ i = 4 ∨ i = 5 ∨ i = 6)
      as [-> | [-> | [-> | [-> | [-> | [-> | ->]]]]]] by lia;
      discriminate. }
  assert (Hf : fil (widget_with (<["freq_specs_unit" := VStr "THz"]> fil_1kHz))
                 !! "f_S" = Some (VFloat 1000)) by (vm_compute; reflexivity).
  assert (Hu : fil (widget_with (<["freq_specs_unit" := VStr "THz"]> fil_1kHz))
                 !! "freq_specs_unit" = Some (VStr "THz"))
    by (vm_compute; reflexivity).
  split; [exact Hu|]. split; [reflexivity|].
  destruct (load_dict_unknown_unit show_number no_match no_bool
              (widget_with (<["freq_specs_unit" := VStr "THz"]> fil_1kHz))
              (VFloat 1000) "<number>" (VStr "THz") eq_refl Hf eq_refl Hu
              (or_intror (ex_intro _ "THz" (conj eq_refl Hno))))
    as (_ & H & _).
  exact H.
Defined.

Lemma load_dict_shows_dictionary_witness :
  fil (widget_at 0) !! "freq_specs_unit" = Some (VStr (unit_at 3)) ∧
  show_number (VFloat 1000) = Ok "<number>" ∧
  currentIndex
    (cmbUnits (exec (load_dict show_number no_match no_bool) (widget_at 0))) =
    3.
Proof.
  split; [reflexivity|]. split; [reflexivity|].
  destruct (load_dict_shows_dictionary show_number no_match no_bool
              (widget_at 0) (VFloat 1000) "<number>" 3 0 "0...½"
              (VStr "half") true
              eq_refl eq_refl eq_refl eq_refl ltac:(lia) eq_refl ltac:(lia)
              eq_refl eq_refl eq_refl) as (_ & _ & H & _).
  exact H.
Defined.

